(** * Entity validation for GraphRAG indexing output

    A shallow embedding of [entity_validator.py]: the three scorers
    ([GroqEntityValidator], [GPUNLIValidator], [HybridValidator]), the
    reply parsers and the checkpointed batch runner of [EntityValidator],
    followed by the properties established about them.

    Conventions of the embedding.
    - Python [str] is [string]; the text methods below follow CPython on
      ASCII text (code points above 127 are outside the model).
    - Python [float] is [pyfloat]: an exact rational kept in lowest terms,
      or one of the three non-finite values that [float()] can produce from
      text.  Rounding, overflow and underflow of binary64 are not modelled.
    - A call that may raise returns an [outcome]; errors of the file system
      are not modelled.
    - The remote chat completion, the NLI model, [json.loads] and the wall
      clock are inputs: they are fields of the validator object or arguments
      of the call ([elapsed] is the value of [time.time() - start_time]).
    - The checkpoint file is a value threaded through the batch loop.  A
      batch that is interrupted is the loop run over a prefix of its work
      queue, without the final save. *)

From Stdlib Require Import ZArith QArith Qabs Lqa String Ascii List Bool Lia DecimalString Sorted.
From stdpp Require Import gmap strings.
Close Scope Q_scope.

(** ** Python text primitives *)

Module Py.

Definition code (c : ascii) : N := N_of_ascii c.

(** [str.isspace] on one ASCII character: TAB, LF, VT, FF, CR, the four
    separators FS, GS, RS, US and the space. *)
Definition is_space (c : ascii) : bool :=
  ((9 <=? code c) && (code c <=? 13) || (28 <=? code c) && (code c <=? 32))%N.

Definition is_lower (c : ascii) : bool := ((97 <=? code c) && (code c <=? 122))%N.
Definition is_upper (c : ascii) : bool := ((65 <=? code c) && (code c <=? 90))%N.
Definition is_alpha (c : ascii) : bool := is_lower c || is_upper c.

Definition upper_char (c : ascii) : ascii :=
  if is_lower c then ascii_of_N (code c - 32) else c.
Definition lower_char (c : ascii) : ascii :=
  if is_upper c then ascii_of_N (code c + 32) else c.

Fixpoint map_chars (f : ascii -> ascii) (s : string) : string :=
  match s with
  | EmptyString => EmptyString
  | String c s' => String (f c) (map_chars f s')
  end.

(** [s.upper()] and [s.lower()] *)
Definition upper : string -> string := map_chars upper_char.
Definition lower : string -> string := map_chars lower_char.

Fixpoint all_chars (p : ascii -> bool) (s : string) : bool :=
  match s with
  | EmptyString => true
  | String c s' => p c && all_chars p s'
  end.

(** [s.isalpha()]: at least one character and all of them letters. *)
Definition isalpha (s : string) : bool :=
  match s with
  | EmptyString => false
  | _ => all_chars is_alpha s
  end.

Fixpoint lstrip_by (p : ascii -> bool) (s : string) : string :=
  match s with
  | EmptyString => EmptyString
  | String c s' => if p c then lstrip_by p s' else s
  end.

Fixpoint rstrip_by (p : ascii -> bool) (s : string) : string :=
  match s with
  | EmptyString => EmptyString
  | String c s' =>
      match rstrip_by p s' with
      | EmptyString => if p c then EmptyString else String c EmptyString
      | r => String c r
      end
  end.

(** [s.strip()] *)
Definition strip (s : string) : string :=
  rstrip_by is_space (lstrip_by is_space s).

Fixpoint mem_char (c : ascii) (chars : string) : bool :=
  match chars with
  | EmptyString => false
  | String d chars' => Ascii.eqb c d || mem_char c chars'
  end.

(** [s.strip(chars)] *)
Definition strip_chars (chars s : string) : string :=
  rstrip_by (fun c => mem_char c chars) (lstrip_by (fun c => mem_char c chars) s).

(** [s.startswith(p)] *)
Definition startswith (s p : string) : bool := String.prefix p s.

(** [pat in s] *)
Fixpoint contains (pat s : string) : bool :=
  String.prefix pat s ||
  match s with
  | EmptyString => false
  | String _ s' => contains pat s'
  end.

(** [s.split(sep)] for a one-character separator: never the empty list. *)
Fixpoint split (sep : ascii) (s : string) : list string :=
  match s with
  | EmptyString => [EmptyString]
  | String c s' =>
      if Ascii.eqb c sep then EmptyString :: split sep s'
      else match split sep s' with
           | w :: ws => String c w :: ws
           | [] => [String c EmptyString]
           end
  end.

(** [s.split(sep, 1)]: cut at the first separator only. *)
Fixpoint split1 (sep : ascii) (s : string) : list string :=
  match s with
  | EmptyString => [EmptyString]
  | String c s' =>
      if Ascii.eqb c sep then [EmptyString; s']
      else match split1 sep s' with
           | w :: ws => String c w :: ws
           | [] => [String c EmptyString]
           end
  end.

(** [s.split()]: maximal runs of characters that are not white space. *)
Fixpoint split_ws_go (cur : option string) (s : string) : list string :=
  match s with
  | EmptyString => match cur with Some w => [String.rev w] | None => [] end
  | String c s' =>
      if is_space c
      then match cur with
           | Some w => String.rev w :: split_ws_go None s'
           | None => split_ws_go None s'
           end
      else split_ws_go (Some (String c (default EmptyString cur))) s'
  end.
Definition split_ws : string -> list string := split_ws_go None.

(** [sep.join(parts)] *)
Fixpoint join (sep : string) (parts : list string) : string :=
  match parts with
  | [] => EmptyString
  | [p] => p
  | p :: rest => p +:+ sep +:+ join sep rest
  end.

(** [s[:n]] *)
Fixpoint take (n : nat) (s : string) : string :=
  match n, s with
  | S n', String c s' => String c (take n' s')
  | _, _ => EmptyString
  end.

(** [xs[:n]] on a list *)
Definition take_list {A} (n : nat) (xs : list A) : list A := firstn n xs.

(** The double quote, for the prompts that contain one. *)
Definition dquote : string := String (ascii_of_nat 34) EmptyString.
Definition newline_char : ascii := ascii_of_nat 10.
Definition nl : string := String newline_char EmptyString.

End Py.

(** ** Python floats *)

Inductive pyfloat : Type :=
  | Finite (q : Q)
  | PosInf
  | NegInf
  | NaN.

Module Float.

Definition Qltb (x y : Q) : bool := negb (Qle_bool y x).

(** [a < b]; every comparison with NaN is false. *)
Definition lt (a b : pyfloat) : bool :=
  match a, b with
  | NaN, _ | _, NaN => false
  | Finite x, Finite y => Qltb x y
  | NegInf, NegInf => false
  | NegInf, _ => true
  | PosInf, _ => false
  | Finite _, PosInf => true
  | Finite _, NegInf => false
  end.

Definition gt (a b : pyfloat) : bool := lt b a.

(** [a <= b] *)
Definition le (a b : pyfloat) : bool :=
  match a, b with
  | NaN, _ | _, NaN => false
  | Finite x, Finite y => Qle_bool x y
  | NegInf, _ => true
  | _, PosInf => true
  | PosInf, _ => false
  | Finite _, NegInf => false
  end.

(** The float literals of the source. *)
Definition c0_0 : Q := 0.
Definition c0_1 : Q := 1 # 10.
Definition c0_3 : Q := 3 # 10.
Definition c0_5 : Q := 1 # 2.
Definition c0_7 : Q := 7 # 10.
Definition c0_8 : Q := 4 # 5.
Definition c1_0 : Q := 1.

Definition digit_of (c : ascii) : option Z :=
  if ((48 <=? Py.code c) && (Py.code c <=? 57))%N
  then Some (Z.of_N (Py.code c) - 48)%Z else None.

(** digitpart ::= digit (["_"] digit)*, with its value and digit count. *)
Fixpoint digitpart_go (s : string) (after_digit : bool) (acc : Z) (n : nat)
  : option (Z * nat) :=
  match s with
  | EmptyString => if after_digit then Some (acc, n) else None
  | String c s' =>
      match digit_of c with
      | Some d => digitpart_go s' true (10 * acc + d)%Z (S n)
      | None =>
          if Ascii.eqb c "_" && after_digit then digitpart_go s' false acc n
          else None
      end
  end.
Definition digitpart (s : string) : option (Z * nat) := digitpart_go s false 0%Z 0.

(** Cut at the first character satisfying [p]. *)
Fixpoint cut_at (p : ascii -> bool) (s : string) : string * option string :=
  match s with
  | EmptyString => (EmptyString, None)
  | String c s' =>
      if p c then (EmptyString, Some s')
      else let '(a, b) := cut_at p s' in (String c a, b)
  end.

(** Optional sign: [true] for a leading minus. *)
Definition take_sign (s : string) : bool * string :=
  match s with
  | String "-" s' => (true, s')
  | String "+" s' => (false, s')
  | _ => (false, s)
  end.

(** number ::= [digitpart] "." digitpart | digitpart ["."] ;
    the result is (mantissa digits as an integer, digits after the point). *)
Definition number (s : string) : option (Z * nat) :=
  match cut_at (Ascii.eqb ".") s with
  | (ip, None) =>
      match digitpart ip with Some (iv, _) => Some (iv, 0) | None => None end
  | (ip, Some fp) =>
      match ip, fp with
      | EmptyString, EmptyString => None
      | EmptyString, _ =>
          match digitpart fp with Some (fv, nf) => Some (fv, nf) | None => None end
      | _, EmptyString =>
          match digitpart ip with Some (iv, _) => Some (iv, 0) | None => None end
      | _, _ =>
          match digitpart ip, digitpart fp with
          | Some (iv, _), Some (fv, nf) => Some (iv * 10 ^ Z.of_nat nf + fv, nf)%Z
          | _, _ => None
          end
      end
  end.

(** exponent ::= ("e" | "E") [sign] digitpart, given without its marker *)
Definition exponent (s : string) : option Z :=
  let '(neg, ds) := take_sign s in
  match digitpart ds with
  | Some (v, _) => Some (if neg then - v else v)%Z
  | None => None
  end.

Definition scale10 (m k : Z) : Q :=
  if (0 <=? k)%Z then Qred (inject_Z (m * 10 ^ k))
  else Qred (m # Z.to_pos (10 ^ (- k))).

(** floatnumber ::= number [exponent] *)
Definition floatnumber (s : string) : option Q :=
  let '(ms, es) := cut_at (fun c => Ascii.eqb c "e" || Ascii.eqb c "E") s in
  match number ms with
  | None => None
  | Some (m, nf) =>
      match es with
      | None => Some (scale10 m (- Z.of_nat nf))
      | Some e =>
          match exponent e with
          | Some ev => Some (scale10 m (ev - Z.of_nat nf))
          | None => None
          end
      end
  end.

Definition neg (f : pyfloat) : pyfloat :=
  match f with
  | Finite q => Finite (Qred (- q))
  | PosInf => NegInf
  | NegInf => PosInf
  | NaN => NaN
  end.

(** [float(s)]: [None] stands for [ValueError]. *)
Definition of_string (s : string) : option pyfloat :=
  let '(negative, body) := take_sign (Py.strip s) in
  let low := Py.lower body in
  let magnitude :=
    if String.eqb low "inf" || String.eqb low "infinity" then Some PosInf
    else if String.eqb low "nan" then Some NaN
    else match floatnumber body with
         | Some q => Some (Finite q)
         | None => None
         end in
  match magnitude with
  | Some f => Some (if negative then neg f else f)
  | None => None
  end.

(** Nearest integer of a non-negative rational, ties to even. *)
Definition round_half_even (q : Q) : Z :=
  let n := Qnum q in
  let d := Z.pos (Qden q) in
  let quo := (n / d)%Z in
  let rem := (n mod d)%Z in
  match (2 * rem ?= d)%Z with
  | Lt => quo
  | Gt => (quo + 1)%Z
  | Eq => if Z.even quo then quo else (quo + 1)%Z
  end.

Definition decimal (z : Z) : string := NilZero.string_of_uint (N.to_uint (Z.to_N z)).

Fixpoint zeros (n : nat) : string :=
  match n with
  | O => EmptyString
  | S n' => String "0" (zeros n')
  end.

(** [format(q, ".<prec>f")] *)
Definition format_f (prec : nat) (q : Q) : string :=
  let scale := (10 ^ Z.of_nat prec)%Z in
  let m := round_half_even (Qabs q * inject_Z scale)%Q in
  let ip := decimal (m / scale) in
  let fp := decimal (m mod scale) in
  let sign := if Qltb q 0 then "-" else "" in
  match prec with
  | O => sign +:+ ip
  | _ => sign +:+ ip +:+ "." +:+ zeros (prec - String.length fp) +:+ fp
  end.

(** [format(q, ".<prec>%")] *)
Definition format_pct (prec : nat) (q : Q) : string :=
  format_f prec (q * 100)%Q +:+ "%".

End Float.

(** Float arithmetic on finite values, results in lowest terms. *)
Module FloatOps.
Definition add (x y : Q) : Q := Qred (x + y).
Definition sub (x y : Q) : Q := Qred (x - y).
Definition div (x y : Q) : Q := Qred (x / y).
(** [max(a, b)]: the first argument unless the second is greater. *)
Definition max (a b : Q) : Q := if Float.Qltb a b then b else a.
(** [sum(xs)] *)
Definition sum (xs : list Q) : Q := fold_left add xs 0%Q.
(** [float(len(xs))] *)
Definition of_len {A} (xs : list A) : Q := inject_Z (Z.of_nat (length xs)).
End FloatOps.

(** ** Data model *)

(** What a call produces: a value, or an exception with its message. *)
Inductive outcome (A : Type) : Type :=
  | Returned (a : A)
  | Raised (msg : string).
Arguments Returned {A} a.
Arguments Raised {A} msg.

(** The [text_unit_ids] cell of an entity: a sequence, or its JSON text. *)
Inductive unit_ids : Type :=
  | IdList (ids : list string)
  | IdText (text : string).

(** One row of [entities.parquet], as far as the validators read it. *)
Record entity_row : Type := mkRow {
  row_id : string;
  row_title : string;
  row_type : string;
  row_description : string;
  row_text_unit_ids : unit_ids
}.

Record ValidationResult : Type := mkValidationResult {
  entity_id : string;
  entity_name : string;
  entity_type : string;
  description : string;
  confidence : pyfloat;
  is_hallucinated : bool;
  method : string;
  issues : list string;
  validation_time : Q
}.

Definition set_validation_time (t : Q) (r : ValidationResult) : ValidationResult :=
  mkValidationResult (entity_id r) (entity_name r) (entity_type r) (description r)
    (confidence r) (is_hallucinated r) (method r) (issues r) t.

Definition set_method (m : string) (r : ValidationResult) : ValidationResult :=
  mkValidationResult (entity_id r) (entity_name r) (entity_type r) (description r)
    (confidence r) (is_hallucinated r) m (issues r) (validation_time r).

(** The remote chat completion: one request, one reply or an exception.
    [content] is [message.content] of the first choice, which may be [None]. *)
Record chat_request : Type := mkRequest {
  req_model : string;
  req_system : string;
  req_user : string;
  req_temperature : Q;
  req_max_tokens : nat
}.

Inductive api_outcome : Type :=
  | ApiRaised (msg : string)
  | ApiContent (content : option string).

(** The content of [validation_results.json]; [None] when the file is absent. *)
Definition checkpoint : Type := option (list ValidationResult).

(** ** EntityValidator: source lookup and the batch runner *)

Module EntityValidator.

Record t : Type := mk {
  entities_df : list entity_row;
  text_unit_map : gmap string string;
  (** [json.loads] on a serialized id list; [None] when it raises. *)
  json_loads : string -> option (list string)
}.

Definition get_source_texts (self : t) (entity_row : entity_row)
  : outcome (list string) :=
  let lookup_all (ids : list string) :=
    omap (fun tid => text_unit_map self !! tid) ids in
  match row_text_unit_ids entity_row with
  | IdList ids => Returned (lookup_all ids)
  | IdText text =>
      match json_loads self text with
      | Some ids => Returned (lookup_all ids)
      | None => Raised "JSONDecodeError"
      end
  end.

Definition _save_results (results : list ValidationResult) (file : checkpoint)
  : checkpoint := Some results.

(** [DataFrame.head(n)]: the first [n] rows, or all but the last [-n]. *)
Definition head {A} (n : Z) (rows : list A) : list A :=
  if (0 <=? n)%Z then firstn (Z.to_nat n) rows
  else firstn (length rows - Z.to_nat (- n)) rows.

Section Batch.
Variable validate_entity : entity_row -> outcome ValidationResult.

(** The [for] loop of [validate_batch], with the accumulated results and
    the checkpoint file as state. *)
Fixpoint run_loop (todo : list entity_row) (results : list ValidationResult)
  (file : checkpoint) : list ValidationResult * checkpoint :=
  match todo with
  | [] => (results, file)
  | row :: rest =>
      match validate_entity row with
      | Returned result =>
          let results := results ++ [result] in
          let file :=
            if (length results mod 10 =? 0)%nat
            then _save_results results file else file in
          run_loop rest results file
      | Raised _ => run_loop rest results file
      end
  end.

(** Results and processed identifiers on entry. *)
Definition load_cached (resume : bool) (file : checkpoint)
  : list ValidationResult * gset string :=
  match resume, file with
  | true, Some cached => (cached, list_to_set (entity_id <$> cached))
  | _, _ => ([], ∅)
  end.

(** The rows left after [isin(processed_ids)] is negated, cut by
    [if limit: ... .head(limit)]: a limit of 0 is falsy, like [None]. *)
Definition entities_to_process (self : t) (limit : option Z)
  (processed_ids : gset string) : list entity_row :=
  let pending :=
    filter (fun row => row_id row ∉ processed_ids) (entities_df self) in
  match limit with
  | Some n => if (n =? 0)%Z then pending else head n pending
  | None => pending
  end.

Definition validate_batch (self : t) (limit : option Z) (resume : bool)
  (file : checkpoint) : list ValidationResult * checkpoint :=
  let '(results, processed_ids) := load_cached resume file in
  let todo := entities_to_process self limit processed_ids in
  let '(results, file) := run_loop todo results file in
  (results, _save_results results file).

End Batch.

End EntityValidator.

(** ** GroqEntityValidator: the LLM-prompt scorer *)

Module GroqEntityValidator.

Record t : Type := mk {
  base : EntityValidator.t;
  client : chat_request -> api_outcome;
  model : string
}.

Definition _build_validation_prompt (name entity_type description : string)
  (source_texts : list string) : string :=
  let context :=
    Py.join (Py.nl +:+ Py.nl +:+ "---" +:+ Py.nl +:+ Py.nl)
            (Py.take_list 3 source_texts) in
  "You are validating whether an entity description is supported by the source documents.

ENTITY INFORMATION:
- Name: " +:+ name +:+ "
- Type: " +:+ entity_type +:+ "
- Description: " +:+ description +:+ "

SOURCE DOCUMENTS:
" +:+ context +:+ "

TASK:
Carefully check if the entity description is factually supported by the source documents. Look for:
1. Does the entity name appear in the source documents?
2. Is the entity type correct based on context?
3. Are the claims in the description supported by the source text?
4. Is there any information in the description that contradicts or isn't mentioned in the sources?

Respond in this exact format:
SUPPORTED: [YES/NO]
CONFIDENCE: [0.0-1.0, where 1.0 means definitely hallucinated]
ISSUES: [List specific problems, or " +:+ Py.dquote +:+ "None" +:+ Py.dquote +:+ " if description is accurate]

Be specific about any unsupported claims.".

(** The three variables the parsing loop updates. *)
Record parsed : Type := mkParsed {
  supported : bool;
  raw_confidence : pyfloat;
  parsed_issues : list string
}.

(** [float(line.split(':')[1].strip().split()[0])], 0.0 on any exception. *)
Definition parse_confidence (line : string) : pyfloat :=
  match Py.split ":" line !! 1%nat with
  | Some field =>
      let conf_str := Py.strip field in
      match Py.split_ws conf_str with
      | token :: _ =>
          match Float.of_string token with
          | Some f => f
          | None => Finite Float.c0_0
          end
      | [] => Finite Float.c0_0
      end
  | None => Finite Float.c0_0
  end.

(** One iteration of the loop over the reply's lines. *)
Definition parse_line (st : parsed) (line : string) : parsed :=
  let line := Py.strip line in
  if Py.startswith line "SUPPORTED:" then
    mkParsed (Py.contains "YES" (Py.upper line)) (raw_confidence st) (parsed_issues st)
  else if Py.startswith line "CONFIDENCE:" then
    mkParsed (supported st) (parse_confidence line) (parsed_issues st)
  else if Py.startswith line "ISSUES:" then
    match Py.split1 ":" line !! 1%nat with
    | Some rest =>
        let issues_text := Py.strip rest in
        if bool_decide (Py.lower issues_text ∈ ["none"; "none."; ""])
        then st
        else mkParsed (supported st) (raw_confidence st) [issues_text]
    | None => st
    end
  else st.

Definition parse_fields (response : string) : parsed :=
  let lines := Py.split Py.newline_char (Py.strip response) in
  fold_left parse_line lines (mkParsed true (Finite Float.c0_0) []).

Definition _parse_api_response (response : string)
  : pyfloat * bool * list string :=
  let st := parse_fields response in
  let confidence :=
    if supported st then
      if Float.gt (raw_confidence st) (Finite Float.c0_5)
      then Finite Float.c0_1 else raw_confidence st
    else
      if Float.lt (raw_confidence st) (Finite Float.c0_5)
      then Finite Float.c0_8 else raw_confidence st in
  let is_hallucinated := negb (supported st) in
  (confidence, is_hallucinated, parsed_issues st).

(** The arguments of [client.chat.completions.create]. *)
Definition chat_request_of (self : t) (prompt : string) : chat_request :=
  mkRequest (model self)
    "You are a fact-checking assistant that validates entity descriptions against source documents."
    prompt 0%Q 500.

Definition validate_entity (self : t) (elapsed : Q) (entity_row : entity_row)
  : outcome ValidationResult :=
  let entity_id := row_id entity_row in
  let entity_name := row_title entity_row in
  let entity_type := row_type entity_row in
  let description := row_description entity_row in
  match EntityValidator.get_source_texts (base self) entity_row with
  | Raised msg => Raised msg
  | Returned [] =>
      Returned (mkValidationResult entity_id entity_name entity_type description
                  (Finite Float.c0_0) false "groq"
                  ["No source texts available"] elapsed)
  | Returned source_texts =>
      let prompt :=
        _build_validation_prompt entity_name entity_type description source_texts in
      let '(confidence, is_hallucinated, issues) :=
        match client self (chat_request_of self prompt) with
        | ApiContent (Some content) => _parse_api_response (Py.strip content)
        | ApiContent None =>
            (Finite Float.c0_0, false, ["API error: " +:+ "API returned empty response"])
        | ApiRaised msg => (Finite Float.c0_0, false, ["API error: " +:+ msg])
        end in
      Returned (mkValidationResult entity_id entity_name entity_type description
                  confidence is_hallucinated "groq" issues elapsed)
  end.

End GroqEntityValidator.

(** ** GPUNLIValidator: the local NLI scorer *)

Module GPUNLIValidator.

Record t : Type := mk {
  base : EntityValidator.t;
  (** Tokenizer, model and softmax together: the entailment probability
      [probs[2]] of a (premise, hypothesis) pair. *)
  entailment_score : string -> string -> Q
}.

(** [[s.strip() for s in description.split('.') if s.strip()]] *)
Definition sentences (description : string) : list string :=
  Py.strip <$>
    filter (fun s => Py.strip s ≠ EmptyString) (Py.split "." description).

(** The inner loop over [source_texts[:3]]. *)
Definition max_entailment (self : t) (source_texts : list string)
  (sentence : string) : Q :=
  fold_left
    (fun max_entailment source_text =>
       let source_text := Py.take 1000 source_text in
       FloatOps.max max_entailment (entailment_score self source_text sentence))
    (Py.take_list 3 source_texts) Float.c0_0.

(** The outer loop over the sentences, skipping those under 10 characters. *)
Definition contradiction_scores (self : t) (source_texts : list string)
  (description : string) : list Q :=
  (fun sentence =>
     FloatOps.sub Float.c1_0 (max_entailment self source_texts sentence)) <$>
    filter (fun sentence => ¬ (String.length sentence < 10)%nat)
           (sentences description).

Definition validate_entity (self : t) (elapsed : Q) (entity_row : entity_row)
  : outcome ValidationResult :=
  let entity_id := row_id entity_row in
  let entity_name := row_title entity_row in
  let entity_type := row_type entity_row in
  let description := row_description entity_row in
  match EntityValidator.get_source_texts (base self) entity_row with
  | Raised msg => Raised msg
  | Returned [] =>
      Returned (mkValidationResult entity_id entity_name entity_type description
                  (Finite Float.c0_0) false "gpu_nli"
                  ["No source texts available"] elapsed)
  | Returned source_texts =>
      let scores := contradiction_scores self source_texts description in
      let confidence :=
        match scores with
        | [] => Float.c0_0
        | _ => FloatOps.div (FloatOps.sum scores) (FloatOps.of_len scores)
        end in
      let is_hallucinated := Float.Qltb Float.c0_5 confidence in
      let issues :=
        if is_hallucinated
        then ["Description not well-supported by source texts (avg entailment: "
                +:+ Float.format_f 2 (1 - confidence)%Q +:+ ")"]
        else [] in
      Returned (mkValidationResult entity_id entity_name entity_type description
                  (Finite confidence) is_hallucinated "gpu_nli" issues elapsed)
  end.

End GPUNLIValidator.

(** ** HybridValidator: text matching, then a chat spot check *)

Module HybridValidator.

Record t : Type := mk {
  base : EntityValidator.t;
  groq_available : bool;
  client : chat_request -> api_outcome;
  model : string
}.

Definition spot_check_prompt (name entity_type description : string)
  (source_texts : list string) : string :=
  let context :=
    Py.join (Py.nl +:+ Py.nl +:+ "---" +:+ Py.nl +:+ Py.nl)
            (Py.take_list 3 source_texts) in
  "Quickly validate if this entity description is accurate:

ENTITY: " +:+ name +:+ " (" +:+ entity_type +:+ ")
DESCRIPTION: " +:+ description +:+ "

SOURCE TEXT:
" +:+ context +:+ "

Is the description supported? Reply with ONLY:
VERDICT: [ACCURATE/HALLUCINATED]
CONFIDENCE: [0.0-1.0]
REASON: [one sentence]".

Definition spot_check_request (self : t) (name entity_type description : string)
  (source_texts : list string) : chat_request :=
  mkRequest (model self) "You are a fast fact-checker."
    (spot_check_prompt name entity_type description source_texts) 0%Q 150.

Definition _groq_spot_check (self : t) (name entity_type description : string)
  (source_texts : list string) : ValidationResult :=
  let on_error (msg : string) :=
    mkValidationResult "" name entity_type description
      (Finite Float.c0_5) false "hybrid_groq" ["API error: " +:+ msg] 0%Q in
  match client self
          (spot_check_request self name entity_type description source_texts) with
  | ApiContent (Some content) =>
      let answer := Py.strip content in
      let is_hallucinated := Py.contains "HALLUCINATED" (Py.upper answer) in
      let confidence := if is_hallucinated then Float.c0_7 else Float.c0_3 in
      let issues :=
        flat_map
          (fun line =>
             if Py.startswith line "REASON:"
             then match Py.split1 ":" line !! 1%nat with
                  | Some rest => [Py.strip rest]
                  | None => []
                  end
             else [])
          (Py.split Py.newline_char answer) in
      mkValidationResult "" name entity_type description
        (Finite confidence) is_hallucinated "hybrid_groq" issues 0%Q
  | ApiContent None => on_error "API returned empty response"
  | ApiRaised msg => on_error msg
  end.

(** Words of the lowered description with more than 3 characters, all
    letters, stripped of surrounding punctuation. *)
Definition key_terms (description : string) : list string :=
  let description_lower := Py.lower description in
  Py.strip_chars (".,;:!?()" +:+ Py.dquote +:+ "'") <$>
    filter (fun word => (3 < String.length word)%nat ∧ Py.isalpha word = true)
           (Py.split_ws description_lower).

Definition combined_source (source_texts : list string) : string :=
  Py.lower (Py.join " " source_texts).

Definition coverage (source_texts : list string) (description : string) : Q :=
  let terms := key_terms description in
  let found_terms :=
    length (filter (fun term =>
                      Py.contains term (combined_source source_texts) = true)
                   terms) in
  match terms with
  | [] => Float.c0_0
  | _ => FloatOps.div (inject_Z (Z.of_nat found_terms)) (FloatOps.of_len terms)
  end.

Definition name_found (source_texts : list string) (entity_name : string) : bool :=
  Py.contains (Py.lower entity_name) (combined_source source_texts).

Definition validate_entity (self : t) (elapsed : Q) (entity_row : entity_row)
  : outcome ValidationResult :=
  let entity_id := row_id entity_row in
  let entity_name := row_title entity_row in
  let entity_type := row_type entity_row in
  let description := row_description entity_row in
  match EntityValidator.get_source_texts (base self) entity_row with
  | Raised msg => Raised msg
  | Returned [] =>
      Returned (mkValidationResult entity_id entity_name entity_type description
                  (Finite Float.c0_0) false "hybrid"
                  ["No source texts available"] elapsed)
  | Returned source_texts =>
      let coverage := coverage source_texts description in
      let name_found := name_found source_texts entity_name in
      if Float.Qltb Float.c0_7 coverage && name_found then
        Returned (mkValidationResult entity_id entity_name entity_type description
                    (Finite Float.c0_1) false "hybrid_text" [] elapsed)
      else if Float.Qltb coverage Float.c0_3 || negb name_found then
        let issues :=
          (if negb name_found
           then ["Entity name '" +:+ entity_name +:+ "' not found in source texts"]
           else []) ++
          (if Float.Qltb coverage Float.c0_3
           then ["Low term coverage (" +:+ Float.format_pct 1 coverage +:+ ")"]
           else []) in
        Returned (mkValidationResult entity_id entity_name entity_type description
                    (Finite Float.c0_8) true "hybrid_text" issues elapsed)
      else if groq_available self then
        let groq_result :=
          _groq_spot_check self entity_name entity_type description source_texts in
        let groq_result := set_validation_time elapsed groq_result in
        let groq_result := set_method "hybrid_groq" groq_result in
        Returned groq_result
      else
        Returned (mkValidationResult entity_id entity_name entity_type description
                    (Finite Float.c0_5) (Float.Qltb coverage Float.c0_5)
                    "hybrid_text"
                    ["Uncertain (coverage: " +:+ Float.format_pct 1 coverage +:+ ")"]
                    elapsed)
  end.

End HybridValidator.

(** ** The validator chosen by [main] *)

Inductive validator : Type :=
  | UseGroq (v : GroqEntityValidator.t)
  | UseGPU (v : GPUNLIValidator.t)
  | UseHybrid (v : HybridValidator.t).

Definition validator_base (v : validator) : EntityValidator.t :=
  match v with
  | UseGroq g => GroqEntityValidator.base g
  | UseGPU n => GPUNLIValidator.base n
  | UseHybrid h => HybridValidator.base h
  end.

(** [validator.validate_entity(row)], dispatched on the class. *)
Definition validate_entity (v : validator) (elapsed : Q) (row : entity_row)
  : outcome ValidationResult :=
  match v with
  | UseGroq g => GroqEntityValidator.validate_entity g elapsed row
  | UseGPU n => GPUNLIValidator.validate_entity n elapsed row
  | UseHybrid h => HybridValidator.validate_entity h elapsed row
  end.

(** [validator.validate_batch(limit, resume)] *)
Definition validate_batch (v : validator) (timing : entity_row -> Q)
  (limit : option Z) (resume : bool) (file : checkpoint)
  : list ValidationResult * checkpoint :=
  EntityValidator.validate_batch
    (fun row => validate_entity v (timing row) row) (validator_base v)
    limit resume file.

(** The [method] a validator writes when it finds no source text. *)
Definition method_name (v : validator) : string :=
  match v with
  | UseGroq _ => "groq"
  | UseGPU _ => "gpu_nli"
  | UseHybrid _ => "hybrid"
  end.

(** ** Vocabulary of the properties *)

Module Spec.

(** A confidence in the closed interval from 0 to 1. *)
Definition in_unit_interval (f : pyfloat) : bool :=
  Float.le (Finite 0) f && Float.le f (Finite 1).

(** Two texts of the same length whose characters agree up to letter case. *)
Fixpoint same_letters (a b : string) : Prop :=
  match a, b with
  | EmptyString, EmptyString => True
  | String x a', String y b' => Py.lower_char x = Py.lower_char y ∧ same_letters a' b'
  | _, _ => False
  end.

(** [pat] occurs somewhere in [s], letter case ignored. *)
Definition occurs_ignoring_case (pat s : string) : Prop :=
  ∃ before middle after,
    s = before +:+ middle +:+ after ∧ same_letters middle pat.

(** The band in which the hybrid scorer does not decide by text alone:
    coverage between 0.3 and 0.7, both included, and the name found. *)
Definition uncertain_band (coverage : Q) (name_found : bool) : Prop :=
  (3 # 10 <= coverage)%Q ∧ (coverage <= 7 # 10)%Q ∧ name_found = true.


(** The sentences the NLI scorer evaluates: at least 10 characters long. *)
Definition qualifying (description : string) : list string :=
  filter (fun s => (10 ≤ String.length s)%nat) (GPUNLIValidator.sentences description).

(** The fragments a sentence is tested against: the first three, each cut
    to 1000 characters. *)
Definition fragments (source_texts : list string) : list string :=
  Py.take 1000 <$> firstn 3 source_texts.

Definition returned {A} (o : outcome A) : bool :=
  match o with Returned _ => true | Raised _ => false end.

(** The scorers whose results always carry the identifier of the row:
    all but the hybrid scorer with its chat client available. *)
Definition keeps_identifier (v : validator) : Prop :=
  match v with
  | UseHybrid h => HybridValidator.groq_available h = false
  | _ => True
  end.

(** The result of a call, if it returned. *)
Definition result_of {A} (o : outcome A) : option A :=
  match o with Returned a => Some a | Raised _ => None end.

(** Number of calls of the batch loop that returned a result. *)
Definition successes (validate_entity : entity_row -> outcome ValidationResult)
  (rows : list entity_row) : nat :=
  length (filter (fun row => returned (validate_entity row) = true) rows).

End Spec.

(** ** Sample inputs *)

Module Sample.

Definition row_alpha : entity_row :=
  mkRow "e1" "Alpha" "ORG" "alpha beta gamma delta." (IdList ["t1"]).

Definition row_orphan : entity_row :=
  mkRow "e2" "Omega" "ORG" "Omega is a made up organisation." (IdList ["missing"]).

Definition corpus : EntityValidator.t :=
  EntityValidator.mk [row_alpha]
    (<["t1" := "Alpha beta is here"]> ∅) (fun _ => None).

Definition llama : string := "llama-3.3-70b-versatile".

(** A reply whose number is outside the range the prompt asks for. *)
Definition reply_five : string :=
  "SUPPORTED: NO" +:+ Py.nl +:+ "CONFIDENCE: 5" +:+ Py.nl +:+ "ISSUES: None".

(** A spot-check reply with verdict ACCURATE and the word in its reason. *)
Definition reply_accurate : string :=
  "VERDICT: ACCURATE" +:+ Py.nl +:+ "CONFIDENCE: 0.9" +:+ Py.nl
    +:+ "REASON: Nothing here is hallucinated.".

Definition groq_five : GroqEntityValidator.t :=
  GroqEntityValidator.mk corpus (fun _ => ApiContent (Some reply_five)) llama.


Definition hybrid_online : HybridValidator.t :=
  HybridValidator.mk corpus true (fun _ => ApiContent (Some reply_accurate)) llama.

Definition hybrid_offline : HybridValidator.t :=
  HybridValidator.mk corpus false (fun _ => ApiRaised "no client") llama.

(** Twenty-five entities that cite no text unit. *)
Definition orphan (i : nat) : entity_row :=
  mkRow ("e" +:+ Float.decimal (Z.of_nat i)) "Omega" "ORG"
    "Omega is a made up organisation." (IdList []).

Definition orphans : EntityValidator.t :=
  EntityValidator.mk (orphan <$> seq 0 25) ∅ (fun _ => None).

Definition nli_orphans : GPUNLIValidator.t :=
  GPUNLIValidator.mk orphans (fun _ _ => 1%Q).

Definition one_second : entity_row → Q := fun _ => 1%Q.

(** A scorer that raises on the entity "e4" and fails open on the others. *)
Definition raises_on_e4 (row : entity_row) : outcome ValidationResult :=
  if String.eqb (row_id row) "e4" then Raised "boom"
  else validate_entity (UseGPU nli_orphans) 1 row.

End Sample.

(** ** Construction of the validators *)

(** What the constructors read from the machine: the two parquet tables,
    the optional [groq] package (given an API key it yields a client), the
    [GROQ_API_KEY] variable, and the NLI stack.  Missing parquet files and
    failures while a model loads are not modelled. *)
Record environment : Type := mkEnvironment {
  entities_parquet : list entity_row;
  text_units_parquet : list (string * string);
  env_json_loads : string -> option (list string);
  groq_package : option (string -> chat_request -> api_outcome);
  GROQ_API_KEY : option string;
  torch_installed : bool;
  transformers_installed : bool;
  nli_model : string -> string -> Q
}.

Module Init.

(** [{row['id']: row['text'] for _, row in text_units_df.iterrows()}]:
    a later row replaces an earlier one with the same id. *)
Definition text_unit_map_of (rows : list (string * string)) : gmap string string :=
  fold_left (fun m row => <[row.1 := row.2]> m) rows ∅.

(** [EntityValidator.__init__] *)
Definition entity_validator (env : environment) : EntityValidator.t :=
  EntityValidator.mk (entities_parquet env)
    (text_unit_map_of (text_units_parquet env)) (env_json_loads env).

(** [a or b] on optional strings: [None] and the empty string are falsy. *)
Definition py_or (a b : option string) : option string :=
  match a with
  | Some EmptyString | None => b
  | Some _ => a
  end.

(** Truth value of an optional string. *)
Definition truthy (a : option string) : bool :=
  match a with
  | Some EmptyString | None => false
  | Some _ => true
  end.

Definition model_name : string := "llama-3.3-70b-versatile".

(** [GroqEntityValidator.__init__]; [sys.exit(1)] is an exception. *)
Definition groq_entity_validator (env : environment) (api_key : option string)
  : outcome GroqEntityValidator.t :=
  let base := entity_validator env in
  match groq_package env with
  | None => Raised "SystemExit: 1"
  | Some Groq =>
      let api_key := py_or api_key (GROQ_API_KEY env) in
      match api_key with
      | Some key =>
          if truthy api_key
          then Returned (GroqEntityValidator.mk base (Groq key) model_name)
          else Raised "SystemExit: 1"
      | None => Raised "SystemExit: 1"
      end
  end.

(** [GPUNLIValidator.__init__] *)
Definition gpu_nli_validator (env : environment) : outcome GPUNLIValidator.t :=
  let base := entity_validator env in
  if torch_installed env then
    if transformers_installed env
    then Returned (GPUNLIValidator.mk base (nli_model env))
    else Raised "SystemExit: 1"
  else Raised "SystemExit: 1".

(** Reading [self.client] when the constructor did not set it. *)
Definition no_client (request : chat_request) : api_outcome :=
  ApiRaised "'HybridValidator' object has no attribute 'client'".

(** [HybridValidator.__init__]: never exits; without the package or a key
    it falls back to text matching only. *)
Definition hybrid_validator (env : environment) (api_key : option string)
  : HybridValidator.t :=
  let base := entity_validator env in
  match groq_package env with
  | Some Groq =>
      let api_key := py_or api_key (GROQ_API_KEY env) in
      match api_key with
      | Some key =>
          if truthy api_key
          then HybridValidator.mk base true (Groq key) model_name
          else HybridValidator.mk base false no_client EmptyString
      | None => HybridValidator.mk base false no_client EmptyString
      end
  | None => HybridValidator.mk base false no_client EmptyString
  end.

End Init.

(** ** The report *)

Module Report.

(** [a + b] on floats *)
Definition fadd (a b : pyfloat) : pyfloat :=
  match a, b with
  | NaN, _ | _, NaN => NaN
  | Finite x, Finite y => Finite (Qred (x + y))
  | PosInf, NegInf | NegInf, PosInf => NaN
  | PosInf, _ | _, PosInf => PosInf
  | NegInf, _ | _, NegInf => NegInf
  end.

(** [sum(xs)] over floats *)
Definition fsum (xs : list pyfloat) : pyfloat := fold_left fadd xs (Finite 0).

(** [a / n] for a positive integer [n] *)
Definition fdiv_nat (a : pyfloat) (n : nat) : pyfloat :=
  match a with
  | Finite x => Finite (Qred (x / inject_Z (Z.of_nat n)))
  | _ => a
  end.

(** [format(f, ".<prec>f")] on a float *)
Definition format_float (prec : nat) (f : pyfloat) : string :=
  match f with
  | Finite q => Float.format_f prec q
  | PosInf => "inf"
  | NegInf => "-inf"
  | NaN => "nan"
  end.

(** [str(n)] for a count *)
Definition str_nat (n : nat) : string := Float.decimal (Z.of_nat n).

Fixpoint repeat_str (s : string) (n : nat) : string :=
  match n with
  | O => EmptyString
  | S n' => s +:+ repeat_str s n'
  end.

(** A row of the frame written by [to_csv]: the issues joined by "; ". *)
Record csv_row : Type := mkCsvRow {
  csv_entity_id : string;
  csv_entity_name : string;
  csv_entity_type : string;
  csv_description : string;
  csv_confidence : pyfloat;
  csv_is_hallucinated : bool;
  csv_method : string;
  csv_issues : string;
  csv_validation_time : Q
}.

Definition to_csv_row (r : ValidationResult) : csv_row :=
  mkCsvRow (entity_id r) (entity_name r) (entity_type r) (description r)
    (confidence r) (is_hallucinated r) (method r)
    (match issues r with [] => EmptyString | x => Py.join "; " x end)
    (validation_time r).

(** [sum(r.is_hallucinated for r in results)] *)
Definition hallucinated_count (results : list ValidationResult) : nat :=
  sum_list_with (fun r => if is_hallucinated r then 1%nat else 0%nat) results.

(** [100*sum(...)/len(results)] *)
Definition hallucinated_percent (results : list ValidationResult) : Q :=
  FloatOps.div (inject_Z (100 * Z.of_nat (hallucinated_count results)))
    (FloatOps.of_len results).

(** [sum(r.confidence for r in results)/len(results)] *)
Definition average_confidence (results : list ValidationResult) : pyfloat :=
  fdiv_nat (fsum (confidence <$> results)) (length results).

Definition total_time (results : list ValidationResult) : Q :=
  FloatOps.sum (validation_time <$> results).

Definition average_time (results : list ValidationResult) : Q :=
  FloatOps.div (total_time results) (FloatOps.of_len results).

(** [list.sort(key=lambda x: x.confidence, reverse=True)]: the stable
    descending order.  It is the order the sort leaves when the keys are
    comparable; what the sort does with a NaN key is not modelled. *)
Fixpoint insert_desc (x : ValidationResult) (sorted : list ValidationResult)
  : list ValidationResult :=
  match sorted with
  | [] => [x]
  | y :: rest =>
      if Float.lt (confidence x) (confidence y) then y :: insert_desc x rest
      else x :: sorted
  end.

Definition sort_desc (l : list ValidationResult) : list ValidationResult :=
  fold_right insert_desc [] l.

(** [[r for r in results if r.is_hallucinated]], sorted, cut to ten. *)
Definition top_hallucinations (results : list ValidationResult)
  : list ValidationResult :=
  take 10 (sort_desc (filter (fun r => is_hallucinated r = true) results)).

(** The two lines printed for the [i]-th entry of the top list. *)
Definition top_lines (i : nat) (r : ValidationResult) : list string :=
  [str_nat i +:+ ". " +:+ entity_name r +:+ " (" +:+ entity_type r
     +:+ ") - Confidence: " +:+ format_float 3 (confidence r);
   "   Issues: " +:+ Py.join ", " (issues r)].

Record report : Type := mkReport {
  csv_file : string;
  csv_rows : list csv_row;
  printed : list string
}.

(** [EntityValidator.generate_report]: the frame written to [output_file]
    and the lines printed.  An empty result list has no [issues] column. *)
Definition generate_report (results : list ValidationResult) (output_file : string)
  : outcome report :=
  match results with
  | [] => Raised "KeyError: 'issues'"
  | _ =>
      let rule := repeat_str "=" 60 in
      let summary :=
        [Py.nl +:+ rule;
         "VALIDATION REPORT";
         rule;
         "Total entities validated: " +:+ str_nat (length results);
         "Hallucinated entities: " +:+ str_nat (hallucinated_count results)
           +:+ " (" +:+ Float.format_f 1 (hallucinated_percent results) +:+ "%)";
         "Average confidence: " +:+ format_float 3 (average_confidence results);
         "Total validation time: " +:+ Float.format_f 1 (total_time results) +:+ "s";
         "Average time per entity: " +:+ Float.format_f 2 (average_time results)
           +:+ "s";
         Py.nl +:+ "Report saved to: " +:+ output_file;
         rule +:+ Py.nl] in
      let top :=
        match filter (fun r => is_hallucinated r = true) results with
        | [] => []
        | _ =>
            (Py.nl +:+ "Top 10 Most Confident Hallucinations:")
              :: concat (imap (fun i r => top_lines (S i) r)
                           (top_hallucinations results))
        end in
      Returned (mkReport output_file (to_csv_row <$> results) (summary ++ top))
  end.

End Report.

(** ** The command line *)

Inductive method_choice : Type := groq | gpu | hybrid.

(** The parsed arguments of [main]. *)
Record arguments : Type := mkArguments {
  arg_method : method_choice;
  arg_graphrag_dir : string;
  arg_limit : option Z;
  arg_all : bool;
  arg_resume : bool;
  arg_output : string
}.

(** The validator [main] creates for [--method]. *)
Definition create_validator (env : environment) (m : method_choice)
  : outcome validator :=
  match m with
  | groq =>
      match Init.groq_entity_validator env None with
      | Returned g => Returned (UseGroq g)
      | Raised msg => Raised msg
      end
  | gpu =>
      match Init.gpu_nli_validator env with
      | Returned n => Returned (UseGPU n)
      | Raised msg => Raised msg
      end
  | hybrid => Returned (UseHybrid (Init.hybrid_validator env None))
  end.

(** The limit [main] passes on: [--all] wins, a missing or zero [--limit]
    becomes 10. *)
Definition main_limit (args : arguments) : option Z :=
  if arg_all args then None
  else match arg_limit args with
       | Some n => if (n =? 0)%Z then Some 10%Z else Some n
       | None => Some 10%Z
       end.

Record main_output : Type := mkMainOutput {
  out_results : list ValidationResult;
  out_checkpoint : checkpoint;
  out_report : option Report.report
}.

(** [main()], after argument parsing. *)
Definition main (env : environment) (args : arguments) (timing : entity_row -> Q)
  (file : checkpoint) : outcome main_output :=
  match create_validator env (arg_method args) with
  | Raised msg => Raised msg
  | Returned validator =>
      let limit := main_limit args in
      let '(results, file) :=
        validate_batch validator timing limit (arg_resume args) file in
      match results with
      | [] => Returned (mkMainOutput results file None)
      | _ =>
          match Report.generate_report results (arg_output args) with
          | Returned rep => Returned (mkMainOutput results file (Some rep))
          | Raised msg => Raised msg
          end
      end
  end.

(** ** Further vocabulary *)

Module Terms.

(** The lines of a reply, stripped, that begin with the SUPPORTED label. *)
Definition supported_lines (response : string) : list string :=
  filter (fun line => Py.startswith line "SUPPORTED:" = true)
         (Py.strip <$> Py.split Py.newline_char (Py.strip response)).

(** The identifiers a row cites, once decoded; [None] when decoding raises. *)
Definition cited_ids (self : EntityValidator.t) (row : entity_row)
  : option (list string) :=
  match row_text_unit_ids row with
  | IdList ids => Some ids
  | IdText text => EntityValidator.json_loads self text
  end.

(** The number of entities [main] lets a run validate at most without
    [--all]: the [--limit] if one is given and it is not 0, else 10. *)
Definition stated_limit (args : arguments) : Z :=
  match arg_limit args with
  | Some n => if (n =? 0)%Z then 10%Z else n
  | None => 10%Z
  end.

(** A float that is not NaN. *)
Definition comparable (f : pyfloat) : Prop := f ≠ NaN.

(** The order of the report: [a] does not come after [b] when the
    confidence of [a] is not below that of [b]. *)
Definition not_below (a b : ValidationResult) : Prop :=
  Float.lt (confidence a) (confidence b) = false.

(** The results whose confidence compares equal to [k]. *)
Definition same_key (k : pyfloat) (r : ValidationResult) : bool :=
  negb (Float.lt (confidence r) k) && negb (Float.lt k (confidence r)).

(** The flagged results, in their order. *)
Definition flagged (results : list ValidationResult) : list ValidationResult :=
  filter (fun r => is_hallucinated r = true) results.

End Terms.

(** ** Comparison lemmas *)

Lemma Qltb_lt (x y : Q) : Float.Qltb x y = true ↔ (x < y)%Q.
Proof.
  unfold Float.Qltb. rewrite negb_true_iff.
  destruct (Qle_bool y x) eqn:E.
  - apply Qle_bool_iff in E. split; [discriminate | intros H; exfalso; lra].
  - split; [intros _ | reflexivity].
    destruct (Qlt_le_dec x y) as [H | H]; [exact H |].
    apply Qle_bool_iff in H. congruence.
Qed.

Lemma Qltb_ge (x y : Q) : Float.Qltb x y = false ↔ (y <= x)%Q.
Proof.
  unfold Float.Qltb. rewrite negb_false_iff. apply Qle_bool_iff.
Qed.

(** ** No source text: every scorer fails open *)

(** C1. For an entity whose resolved source-fragment list is empty, each of
    the three scorers returns a result with confidence 0.0, not flagged,
    whatever the description, and records the single issue
    "No source texts available". *)
Theorem C1_no_sources_fail_open :
  ∀ (v : validator) (elapsed : Q) (row : entity_row),
    EntityValidator.get_source_texts (validator_base v) row = Returned [] →
    validate_entity v elapsed row =
      Returned (mkValidationResult (row_id row) (row_title row) (row_type row)
                  (row_description row) (Finite 0) false (method_name v)
                  ["No source texts available"] elapsed).
Proof.
  intros [g | n | h] elapsed row Hsrc; simpl in *.
  - unfold GroqEntityValidator.validate_entity. now rewrite Hsrc.
  - unfold GPUNLIValidator.validate_entity. now rewrite Hsrc.
  - unfold HybridValidator.validate_entity. now rewrite Hsrc.
Qed.

Lemma C1_no_sources_fail_open_witness :
  EntityValidator.get_source_texts
    (validator_base (UseHybrid Sample.hybrid_online)) Sample.row_orphan = Returned []
  ∧ validate_entity (UseHybrid Sample.hybrid_online) 2 Sample.row_orphan =
      Returned (mkValidationResult "e2" "Omega" "ORG" "Omega is a made up organisation."
                  (Finite 0) false "hybrid" ["No source texts available"] 2).
Proof.
  split; [reflexivity |].
  apply (C1_no_sources_fail_open (UseHybrid Sample.hybrid_online) 2 Sample.row_orphan).
  reflexivity.
Defined.

(** ** The LLM reply parser *)

(** C2. Whatever the reply, with [supported] and [raw_confidence] the values
    the parsing loop ends with: SUPPORTED=yes and raw confidence above 0.5
    report 0.1; SUPPORTED=no and raw confidence below 0.5 report 0.8; in every
    other case the raw value is reported; and [is_hallucinated] is the
    negation of SUPPORTED in all cases. *)
Theorem C2_confidence_reconciliation :
  ∀ response : string,
    let st := GroqEntityValidator.parse_fields response in
    let c := GroqEntityValidator.raw_confidence st in
    let yes := GroqEntityValidator.supported st in
    let out := GroqEntityValidator._parse_api_response response in
    (yes = true ∧ Float.gt c (Finite (1 # 2)) = true → out.1.1 = Finite (1 # 10)) ∧
    (yes = false ∧ Float.lt c (Finite (1 # 2)) = true → out.1.1 = Finite (4 # 5)) ∧
    (¬ (yes = true ∧ Float.gt c (Finite (1 # 2)) = true) →
     ¬ (yes = false ∧ Float.lt c (Finite (1 # 2)) = true) → out.1.1 = c) ∧
    out.1.2 = negb yes.
Proof.
  intros response st c yes out.
  assert (Hout : out =
            (if yes
             then if Float.gt c (Finite (1 # 2)) then Finite (1 # 10) else c
             else if Float.lt c (Finite (1 # 2)) then Finite (4 # 5) else c,
             negb yes, GroqEntityValidator.parsed_issues st)) by reflexivity.
  rewrite Hout; cbn [fst snd].
  destruct yes;
    [destruct (Float.gt c (Finite (1 # 2))) | destruct (Float.lt c (Finite (1 # 2)))];
    repeat split; intros; intuition congruence.
Qed.

Lemma C2_confidence_reconciliation_witness :
  (GroqEntityValidator._parse_api_response
     ("SUPPORTED: NO" +:+ Py.nl +:+ "CONFIDENCE: 0.2" +:+ Py.nl +:+ "ISSUES: None")).1.1
  = Finite (4 # 5).
Proof.
  destruct (C2_confidence_reconciliation
              ("SUPPORTED: NO" +:+ Py.nl +:+ "CONFIDENCE: 0.2" +:+ Py.nl +:+ "ISSUES: None"))
    as (_ & H & _ & _).
  apply H. split; reflexivity.
Defined.

(** The three replies of the reconciliation example. *)
Example parse_yes_high :
  GroqEntityValidator._parse_api_response
    ("SUPPORTED: YES" +:+ Py.nl +:+ "CONFIDENCE: 0.9" +:+ Py.nl +:+ "ISSUES: None")
  = (Finite (1 # 10), false, []).
Proof. reflexivity. Qed.

Example parse_no_low :
  GroqEntityValidator._parse_api_response
    ("SUPPORTED: NO" +:+ Py.nl +:+ "CONFIDENCE: 0.2" +:+ Py.nl +:+ "ISSUES: unsupported date")
  = (Finite (4 # 5), true, ["unsupported date"]).
Proof. reflexivity. Qed.

Example parse_yes_low :
  GroqEntityValidator._parse_api_response
    ("SUPPORTED: YES" +:+ Py.nl +:+ "CONFIDENCE: 0.3" +:+ Py.nl +:+ "ISSUES: None")
  = (Finite (3 # 10), false, []).
Proof. reflexivity. Qed.

(** ** The hybrid scorer's decision table *)

Section HybridTable.
Variables (self : HybridValidator.t) (elapsed : Q) (row : entity_row).
Variable source_texts : list string.
Hypothesis Hsrc :
  EntityValidator.get_source_texts (HybridValidator.base self) row
  = Returned source_texts.
Hypothesis Hne : source_texts ≠ [].

Lemma hybrid_first_row :
  let cov := HybridValidator.coverage source_texts (row_description row) in
  let found := HybridValidator.name_found source_texts (row_title row) in
  (7 # 10 < cov)%Q → found = true →
  HybridValidator.validate_entity self elapsed row =
    Returned (mkValidationResult (row_id row) (row_title row) (row_type row)
                (row_description row) (Finite (1 # 10)) false "hybrid_text" []
                elapsed).
Proof.
  intros cov found Hc Hf. unfold HybridValidator.validate_entity. rewrite Hsrc.
  destruct source_texts as [| s0 rest]; [congruence |].
  fold cov found. apply Qltb_lt in Hc.
  change Float.c0_7 with (7 # 10)%Q. now rewrite Hc, Hf.
Qed.

Lemma hybrid_second_row :
  let cov := HybridValidator.coverage source_texts (row_description row) in
  let found := HybridValidator.name_found source_texts (row_title row) in
  (cov < 3 # 10)%Q ∨ found = false →
  ∃ issues,
    HybridValidator.validate_entity self elapsed row =
      Returned (mkValidationResult (row_id row) (row_title row) (row_type row)
                  (row_description row) (Finite (4 # 5)) true "hybrid_text" issues
                  elapsed).
Proof.
  intros cov found Hor. unfold HybridValidator.validate_entity. rewrite Hsrc.
  destruct source_texts as [| s0 rest]; [congruence |].
  fold cov found.
  change Float.c0_7 with (7 # 10)%Q. change Float.c0_3 with (3 # 10)%Q.
  assert (H1 : Float.Qltb (7 # 10) cov && found = false).
  { destruct Hor as [Hc | Hf].
    - apply andb_false_iff; left. apply Qltb_ge. lra.
    - rewrite Hf. apply andb_false_r. }
  assert (H2 : Float.Qltb cov (3 # 10) || negb found = true).
  { destruct Hor as [Hc | Hf].
    - apply Qltb_lt in Hc. now rewrite Hc.
    - rewrite Hf. apply orb_true_r. }
  rewrite H1, H2. eexists. reflexivity.
Qed.

Lemma hybrid_escalates :
  let cov := HybridValidator.coverage source_texts (row_description row) in
  let found := HybridValidator.name_found source_texts (row_title row) in
  Spec.uncertain_band cov found →
  HybridValidator.validate_entity self elapsed row =
    if HybridValidator.groq_available self
    then Returned
           (set_method "hybrid_groq"
              (set_validation_time elapsed
                 (HybridValidator._groq_spot_check self (row_title row)
                    (row_type row) (row_description row) source_texts)))
    else Returned
           (mkValidationResult (row_id row) (row_title row) (row_type row)
              (row_description row) (Finite (1 # 2)) (Float.Qltb cov (1 # 2))
              "hybrid_text"
              ["Uncertain (coverage: " +:+ Float.format_pct 1 cov +:+ ")"] elapsed).
Proof.
  intros cov found (Hlo & Hhi & Hf).
  unfold HybridValidator.validate_entity. rewrite Hsrc.
  destruct source_texts as [| s0 rest]; [congruence |].
  fold cov found.
  change Float.c0_7 with (7 # 10)%Q. change Float.c0_3 with (3 # 10)%Q.
  apply Qltb_ge in Hlo, Hhi. rewrite Hlo, Hhi, Hf. reflexivity.
Qed.

End HybridTable.

(** C3. With at least one source fragment, the hybrid scorer decides from
    coverage and name_found alone, in this order: coverage above 0.7 with the
    name found gives confidence 0.1, not flagged; coverage below 0.3 or the
    name missing gives confidence 0.8, flagged; in the remaining band, with no
    LLM configured, confidence is 0.5 and the flag is (coverage < 0.5). *)
Theorem C3_hybrid_decision_table :
  ∀ (self : HybridValidator.t) (elapsed : Q) (row : entity_row)
    (source_texts : list string),
    EntityValidator.get_source_texts (HybridValidator.base self) row
      = Returned source_texts →
    source_texts ≠ [] →
    let cov := HybridValidator.coverage source_texts (row_description row) in
    let found := HybridValidator.name_found source_texts (row_title row) in
    ((7 # 10 < cov)%Q ∧ found = true →
       ∃ r, HybridValidator.validate_entity self elapsed row = Returned r
            ∧ confidence r = Finite (1 # 10) ∧ is_hallucinated r = false) ∧
    ((cov < 3 # 10)%Q ∨ found = false →
       ∃ r, HybridValidator.validate_entity self elapsed row = Returned r
            ∧ confidence r = Finite (4 # 5) ∧ is_hallucinated r = true) ∧
    (¬ ((7 # 10 < cov)%Q ∧ found = true) →
     ¬ ((cov < 3 # 10)%Q ∨ found = false) →
     HybridValidator.groq_available self = false →
       ∃ r, HybridValidator.validate_entity self elapsed row = Returned r
            ∧ confidence r = Finite (1 # 2)
            ∧ (is_hallucinated r = true ↔ (cov < 1 # 2)%Q)).
Proof.
  intros self elapsed row source_texts Hsrc Hne cov found.
  split; [| split].
  - intros [Hc Hf]. eexists. split.
    + apply (hybrid_first_row self elapsed row source_texts Hsrc Hne Hc Hf).
    + split; reflexivity.
  - intros Hor.
    destruct (hybrid_second_row self elapsed row source_texts Hsrc Hne Hor)
      as [issues Hr].
    eexists. split; [exact Hr | split; reflexivity].
  - intros H1 H2 Hoff.
    assert (Hband : Spec.uncertain_band cov found).
    { unfold Spec.uncertain_band.
      destruct found; [| exfalso; apply H2; now right].
      repeat split.
      - destruct (Qlt_le_dec cov (3 # 10)); [exfalso; apply H2; now left | assumption].
      - destruct (Qlt_le_dec (7 # 10) cov); [exfalso; apply H1; now split | assumption]. }
    pose proof (hybrid_escalates self elapsed row source_texts Hsrc Hne Hband) as Hr.
    rewrite Hoff in Hr. eexists. split; [exact Hr |].
    split; [reflexivity | apply Qltb_lt].
Qed.

Lemma C3_hybrid_decision_table_witness :
  ∃ r, HybridValidator.validate_entity Sample.hybrid_offline 1 Sample.row_alpha
         = Returned r
       ∧ confidence r = Finite (1 # 2)
       ∧ (is_hallucinated r = true ↔ (2 # 3 < 1 # 2)%Q).
Proof.
  assert (Hsrc : EntityValidator.get_source_texts
                   (HybridValidator.base Sample.hybrid_offline) Sample.row_alpha
                 = Returned ["Alpha beta is here"]) by reflexivity.
  assert (Hne : ["Alpha beta is here"] ≠ []) by discriminate.
  destruct (C3_hybrid_decision_table Sample.hybrid_offline 1 Sample.row_alpha
              ["Alpha beta is here"] Hsrc Hne) as (_ & _ & H3).
  apply H3.
  - vm_compute. intros [H _]. discriminate.
  - vm_compute. intros [H | H]; discriminate.
  - reflexivity.
Defined.

(** ** The escalation path of the hybrid scorer *)

(** C6 (as the code behaves). On the escalation path the result carries the
    name, type and description of the input row, and [method] and
    [validation_time] are the two fields written after the delegated call;
    the identifier is not copied: it is the empty text the spot check put
    there. *)
Theorem C6_escalation_result_lacks_identifier :
  ∀ (self : HybridValidator.t) (elapsed : Q) (row : entity_row)
    (source_texts : list string),
    EntityValidator.get_source_texts (HybridValidator.base self) row
      = Returned source_texts →
    source_texts ≠ [] →
    Spec.uncertain_band
      (HybridValidator.coverage source_texts (row_description row))
      (HybridValidator.name_found source_texts (row_title row)) →
    HybridValidator.groq_available self = true →
    ∃ r, HybridValidator.validate_entity self elapsed row = Returned r
         ∧ r = set_method "hybrid_groq"
                 (set_validation_time elapsed
                    (HybridValidator._groq_spot_check self (row_title row)
                       (row_type row) (row_description row) source_texts))
         ∧ entity_name r = row_title row
         ∧ entity_type r = row_type row
         ∧ description r = row_description row
         ∧ method r = "hybrid_groq"
         ∧ validation_time r = elapsed
         ∧ entity_id r = "".
Proof.
  intros self elapsed row source_texts Hsrc Hne Hband Hon.
  pose proof (hybrid_escalates self elapsed row source_texts Hsrc Hne Hband) as Hr.
  rewrite Hon in Hr. eexists. split; [exact Hr |].
  split; [reflexivity |].
  unfold HybridValidator._groq_spot_check.
  destruct (HybridValidator.client self _) as [msg | [content |]];
    repeat split; reflexivity.
Qed.

Lemma C6_escalation_result_lacks_identifier_witness :
  ∃ r, HybridValidator.validate_entity Sample.hybrid_online 1 Sample.row_alpha
         = Returned r
       ∧ row_id Sample.row_alpha = "e1"
       ∧ entity_id r = "".
Proof.
  assert (Hsrc : EntityValidator.get_source_texts
                   (HybridValidator.base Sample.hybrid_online) Sample.row_alpha
                 = Returned ["Alpha beta is here"]) by reflexivity.
  assert (Hne : ["Alpha beta is here"] ≠ []) by discriminate.
  assert (Hband : Spec.uncertain_band
                    (HybridValidator.coverage ["Alpha beta is here"]
                       (row_description Sample.row_alpha))
                    (HybridValidator.name_found ["Alpha beta is here"]
                       (row_title Sample.row_alpha))).
  { vm_compute. repeat split; discriminate. }
  destruct (C6_escalation_result_lacks_identifier Sample.hybrid_online 1
              Sample.row_alpha ["Alpha beta is here"] Hsrc Hne Hband eq_refl)
    as (r & Hr & _ & _ & _ & _ & _ & _ & Hid).
  exists r. repeat split; assumption.
Defined.

(** ** Range of the reported confidence *)

(** C4 (as the code behaves). The LLM reply parser reports a raw confidence
    of 5 unchanged when SUPPORTED is NO, so the result of the Groq scorer
    has a confidence outside the interval from 0 to 1. *)
Theorem C4_confidence_outside_unit_interval :
  ∃ r, validate_entity (UseGroq Sample.groq_five) 1 Sample.row_alpha = Returned r
       ∧ confidence r = Finite 5
       ∧ Spec.in_unit_interval (confidence r) = false.
Proof.
  eexists. split; [vm_compute; reflexivity |]. split; reflexivity.
Qed.

(** ** Text lemmas for the spot-check verdict *)

Section TextLemmas.

Lemma prefix_empty_r (pat : string) :
  String.prefix pat EmptyString = true ↔ pat = EmptyString.
Proof. destruct pat; simpl; split; congruence. Qed.

Lemma prefix_cons (a b : ascii) (pat s : string) :
  String.prefix (String a pat) (String b s)
  = Ascii.eqb a b && String.prefix pat s.
Proof.
  simpl. destruct (ascii_dec a b) as [-> | Hne].
  - now rewrite Ascii.eqb_refl.
  - apply Ascii.eqb_neq in Hne. now rewrite Hne.
Qed.

Lemma prefix_app (pat s : string) :
  String.prefix pat s = true ↔ ∃ rest, s = pat +:+ rest.
Proof.
  revert s. induction pat as [| a pat IH]; intros s.
  - destruct s; simpl; split; eauto.
  - destruct s as [| b s].
    + simpl. split; [discriminate | intros [rest H]; discriminate].
    + rewrite prefix_cons, andb_true_iff, Ascii.eqb_eq, IH. split.
      * intros [-> [rest ->]]. now exists rest.
      * intros [rest H]. simpl in H. injection H as -> ->. eauto.
Qed.

(** [pat in s] holds exactly when [s] splits around a copy of [pat]. *)
Lemma contains_app (pat s : string) :
  Py.contains pat s = true ↔ ∃ before after, s = before +:+ pat +:+ after.
Proof.
  induction s as [| c s IH].
  - cbn [Py.contains]. rewrite orb_false_r, prefix_empty_r. split.
    + intros ->. now exists EmptyString, EmptyString.
    + intros (before & after & H). destruct before; [| discriminate].
      destruct pat; [reflexivity | discriminate].
  - cbn [Py.contains]. rewrite orb_true_iff, IH, prefix_app. split.
    + intros [[rest ->] | (before & after & ->)].
      * now exists EmptyString, rest.
      * now exists (String c before), after.
    + intros (before & after & H). destruct before as [| b before].
      * left. now exists after.
      * right. simpl in H. injection H as -> ->. eauto.
Qed.

Lemma map_chars_app (f : ascii → ascii) (a b : string) :
  Py.map_chars f (a +:+ b) = Py.map_chars f a +:+ Py.map_chars f b.
Proof. induction a as [| c a IH]; simpl; [reflexivity | now rewrite IH]. Qed.

Lemma map_chars_split (f : ascii → ascii) (s x y : string) :
  Py.map_chars f s = x +:+ y →
  ∃ a b, s = a +:+ b ∧ Py.map_chars f a = x ∧ Py.map_chars f b = y.
Proof.
  revert s. induction x as [| c x IH]; intros s H.
  - exists EmptyString, s. auto.
  - destruct s as [| d s]; [discriminate |].
    simpl in H. injection H as Hc Hs.
    destruct (IH s Hs) as (a & b & -> & Ha & Hb).
    exists (String d a), b. simpl. now rewrite Hc, Ha.
Qed.

Lemma lower_upper_char (c : ascii) :
  Py.lower_char (Py.upper_char c) = Py.lower_char c.
Proof. destruct c as [[] [] [] [] [] [] [] []]; reflexivity. Qed.

Lemma upper_lower_char (c : ascii) :
  Py.upper_char (Py.lower_char c) = Py.upper_char c.
Proof. destruct c as [[] [] [] [] [] [] [] []]; reflexivity. Qed.

Lemma is_space_upper_char (c : ascii) :
  Py.is_space (Py.upper_char c) = Py.is_space c.
Proof. destruct c as [[] [] [] [] [] [] [] []]; reflexivity. Qed.

Lemma same_letters_upper (a b : string) :
  Spec.same_letters a b ↔ Py.upper a = Py.upper b.
Proof.
  unfold Py.upper. revert b.
  induction a as [| x a IH]; intros [| y b]; simpl;
    try (split; [tauto | discriminate]); [tauto |].
  rewrite IH. split.
  - intros [Hc ->]. f_equal.
    rewrite <- (upper_lower_char x), <- (upper_lower_char y). now rewrite Hc.
  - intros H. injection H as Hc Hs. split; [| assumption].
    rewrite <- (lower_upper_char x), <- (lower_upper_char y). now rewrite Hc.
Qed.

(** Stripping and mapping commute when the map respects the stripped set. *)
Lemma lstrip_map_chars (p : ascii → bool) (f : ascii → ascii) (s : string) :
  (∀ c, p (f c) = p c) →
  Py.lstrip_by p (Py.map_chars f s) = Py.map_chars f (Py.lstrip_by p s).
Proof.
  intros Hp. induction s as [| c s IH]; simpl; [reflexivity |].
  rewrite Hp. destruct (p c); [exact IH | reflexivity].
Qed.

Lemma rstrip_map_chars (p : ascii → bool) (f : ascii → ascii) (s : string) :
  (∀ c, p (f c) = p c) →
  Py.rstrip_by p (Py.map_chars f s) = Py.map_chars f (Py.rstrip_by p s).
Proof.
  intros Hp. induction s as [| c s IH]; simpl; [reflexivity |].
  rewrite IH, Hp.
  destruct (Py.rstrip_by p s); simpl; [destruct (p c) |]; reflexivity.
Qed.

Lemma upper_strip (s : string) : Py.upper (Py.strip s) = Py.strip (Py.upper s).
Proof.
  unfold Py.upper, Py.strip.
  rewrite lstrip_map_chars, rstrip_map_chars; auto using is_space_upper_char.
Qed.

(** A pattern that starts with a kept character survives left stripping. *)
Lemma contains_lstrip (p : ascii → bool) (c0 : ascii) (pat s : string) :
  p c0 = false →
  Py.contains (String c0 pat) (Py.lstrip_by p s) = Py.contains (String c0 pat) s.
Proof.
  intros H0. induction s as [| c s IH]; [reflexivity |].
  cbn [Py.lstrip_by]. destruct (p c) eqn:Hc; [| reflexivity].
  rewrite IH. cbn [Py.contains]. rewrite prefix_cons.
  destruct (Ascii.eqb c0 c) eqn:E; [| reflexivity].
  apply Ascii.eqb_eq in E. congruence.
Qed.

Lemma rstrip_cons (p : ascii → bool) (c : ascii) (s : string) :
  (Py.rstrip_by p (String c s) = EmptyString
   ∧ Py.rstrip_by p s = EmptyString ∧ p c = true)
  ∨ Py.rstrip_by p (String c s) = String c (Py.rstrip_by p s).
Proof.
  simpl. destruct (Py.rstrip_by p s); [| now right].
  destruct (p c); [now left | now right].
Qed.

Lemma prefix_rstrip (p : ascii → bool) (pat s : string) :
  pat ≠ EmptyString →
  Py.all_chars (fun c => negb (p c)) pat = true →
  String.prefix pat (Py.rstrip_by p s) = String.prefix pat s.
Proof.
  revert pat. induction s as [| c s IH]; intros pat Hne Hall; [reflexivity |].
  destruct pat as [| c0 pat]; [congruence |].
  simpl in Hall. apply andb_true_iff in Hall as [H0 Hall].
  apply negb_true_iff in H0.
  assert (Htail : String.prefix pat (Py.rstrip_by p s) = String.prefix pat s).
  { destruct pat as [| c1 pat]; [now destruct (Py.rstrip_by p s), s |].
    now apply IH. }
  destruct (rstrip_cons p c s) as [(-> & Hs & Hc) | ->].
  - rewrite prefix_cons. destruct (Ascii.eqb c0 c) eqn:E; [| reflexivity].
    apply Ascii.eqb_eq in E. congruence.
  - now rewrite !prefix_cons, Htail.
Qed.

(** A pattern made of kept characters survives right stripping. *)
Lemma contains_rstrip (p : ascii → bool) (pat s : string) :
  pat ≠ EmptyString →
  Py.all_chars (fun c => negb (p c)) pat = true →
  Py.contains pat (Py.rstrip_by p s) = Py.contains pat s.
Proof.
  intros Hne Hall. induction s as [| c s IH]; [reflexivity |].
  cbn [Py.contains]. rewrite <- IH, <- (prefix_rstrip p pat (String c s) Hne Hall).
  destruct (rstrip_cons p c s) as [(-> & -> & _) | ->].
  - cbn [Py.contains]. now destruct (String.prefix pat EmptyString).
  - reflexivity.
Qed.

Lemma contains_strip (c0 : ascii) (pat s : string) :
  Py.all_chars (fun c => negb (Py.is_space c)) (String c0 pat) = true →
  Py.contains (String c0 pat) (Py.strip s) = Py.contains (String c0 pat) s.
Proof.
  intros Hall. unfold Py.strip.
  rewrite contains_rstrip by (congruence || assumption).
  apply contains_lstrip.
  simpl in Hall. apply andb_true_iff in Hall as [H0 _].
  now apply negb_true_iff in H0.
Qed.

(** The test of the spot check, [PAT in answer.strip().upper()], for an
    upper-case pattern without white space. *)
Lemma verdict_test (c0 : ascii) (pat content : string) :
  Py.upper (String c0 pat) = String c0 pat →
  Py.all_chars (fun c => negb (Py.is_space c)) (String c0 pat) = true →
  Py.contains (String c0 pat) (Py.upper (Py.strip content)) = true
  ↔ Spec.occurs_ignoring_case (String c0 pat) content.
Proof.
  intros Hup Hall.
  rewrite upper_strip, contains_strip by assumption.
  rewrite contains_app. unfold Spec.occurs_ignoring_case. split.
  - intros (x & y & H).
    destruct (map_chars_split _ _ _ _ H) as (before & rest & -> & Hb & Hr).
    destruct (map_chars_split _ _ _ _ Hr) as (middle & after & -> & Hm & Ha).
    exists before, middle, after. split; [reflexivity |].
    apply same_letters_upper. now rewrite Hup.
  - intros (before & middle & after & -> & Hsame).
    apply same_letters_upper in Hsame. rewrite Hup in Hsame.
    exists (Py.upper before), (Py.upper after).
    unfold Py.upper in *. now rewrite !map_chars_app, Hsame.
Qed.

End TextLemmas.

(** C10. On the escalation path, for every reply the client delivers, the
    result is flagged (with confidence 0.7) exactly when HALLUCINATED occurs
    somewhere in the whole reply, letter case ignored; otherwise it is not
    flagged and the confidence is 0.3.  A verdict line that reads ACCURATE
    does not prevent the flag when the word appears elsewhere. *)
Theorem C10_spot_check_verdict_anywhere :
  ∀ (self : HybridValidator.t) (elapsed : Q) (row : entity_row)
    (source_texts : list string) (content : string),
    EntityValidator.get_source_texts (HybridValidator.base self) row
      = Returned source_texts →
    source_texts ≠ [] →
    Spec.uncertain_band
      (HybridValidator.coverage source_texts (row_description row))
      (HybridValidator.name_found source_texts (row_title row)) →
    HybridValidator.groq_available self = true →
    HybridValidator.client self
      (HybridValidator.spot_check_request self (row_title row) (row_type row)
         (row_description row) source_texts) = ApiContent (Some content) →
    ∃ r, HybridValidator.validate_entity self elapsed row = Returned r
         ∧ (Spec.occurs_ignoring_case "HALLUCINATED" content →
              is_hallucinated r = true ∧ confidence r = Finite (7 # 10))
         ∧ (¬ Spec.occurs_ignoring_case "HALLUCINATED" content →
              is_hallucinated r = false ∧ confidence r = Finite (3 # 10)).
Proof.
  intros self elapsed row source_texts content Hsrc Hne Hband Hon Hreply.
  pose proof (hybrid_escalates self elapsed row source_texts Hsrc Hne Hband) as Hr.
  rewrite Hon in Hr. eexists. split; [exact Hr |].
  unfold HybridValidator._groq_spot_check. rewrite Hreply. cbn [is_hallucinated
    confidence set_method set_validation_time].
  pose proof (verdict_test "H" "ALLUCINATED" content eq_refl eq_refl) as Htest.
  destruct (Py.contains "HALLUCINATED" (Py.upper (Py.strip content))) eqn:E.
  - split; [intros _; split; reflexivity |].
    intros Hno. exfalso. apply Hno, Htest. reflexivity.
  - split; [| intros _; split; reflexivity].
    intros Hocc. apply Htest in Hocc. discriminate.
Qed.

Lemma C10_spot_check_verdict_anywhere_witness :
  Spec.occurs_ignoring_case "HALLUCINATED" Sample.reply_accurate
  ∧ ∃ r, HybridValidator.validate_entity Sample.hybrid_online 1 Sample.row_alpha
           = Returned r
         ∧ is_hallucinated r = true ∧ confidence r = Finite (7 # 10).
Proof.
  assert (Hocc : Spec.occurs_ignoring_case "HALLUCINATED" Sample.reply_accurate).
  { exists ("VERDICT: ACCURATE" +:+ Py.nl +:+ "CONFIDENCE: 0.9" +:+ Py.nl
              +:+ "REASON: Nothing here is "), "hallucinated", ".".
    split; [reflexivity | vm_compute; tauto]. }
  split; [exact Hocc |].
  assert (Hsrc : EntityValidator.get_source_texts
                   (HybridValidator.base Sample.hybrid_online) Sample.row_alpha
                 = Returned ["Alpha beta is here"]) by reflexivity.
  assert (Hne : ["Alpha beta is here"] ≠ []) by discriminate.
  assert (Hband : Spec.uncertain_band
                    (HybridValidator.coverage ["Alpha beta is here"]
                       (row_description Sample.row_alpha))
                    (HybridValidator.name_found ["Alpha beta is here"]
                       (row_title Sample.row_alpha))).
  { vm_compute. repeat split; discriminate. }
  destruct (C10_spot_check_verdict_anywhere Sample.hybrid_online 1 Sample.row_alpha
              ["Alpha beta is here"] Sample.reply_accurate Hsrc Hne Hband
              eq_refl eq_refl) as (r & Hr & Hyes & _).
  exists r. split; [exact Hr | exact (Hyes Hocc)].
Defined.

(** ** The batch runner *)

Ltac div_mod_10 :=
  repeat match goal with
    | |- context [(?a / 10)%nat] =>
        lazymatch goal with
        | _ : a = (10 * (a / 10) + a mod 10)%nat |- _ => fail
        | _ => pose proof (Nat.div_mod_eq a 10);
               pose proof (Nat.mod_upper_bound a 10 ltac:(lia))
        end
    | _ : context [(?a / 10)%nat] |- _ =>
        lazymatch goal with
        | _ : a = (10 * (a / 10) + a mod 10)%nat |- _ => fail
        | _ => pose proof (Nat.div_mod_eq a 10);
               pose proof (Nat.mod_upper_bound a 10 ltac:(lia))
        end
    | _ : context [(?a mod 10)%nat] |- _ =>
        lazymatch goal with
        | _ : a = (10 * (a / 10) + a mod 10)%nat |- _ => fail
        | _ => pose proof (Nat.div_mod_eq a 10);
               pose proof (Nat.mod_upper_bound a 10 ltac:(lia))
        end
    end;
  lia.

Section Loop.
Variable ve : entity_row → outcome ValidationResult.

Lemma successes_cons (row : entity_row) (rest : list entity_row) :
  Spec.successes ve (row :: rest)
  = ((if Spec.returned (ve row) then 1 else 0) + Spec.successes ve rest)%nat.
Proof.
  unfold Spec.successes. rewrite filter_cons.
  destruct (ve row); simpl; try case_decide; simpl; congruence.
Qed.

Lemma run_loop_returned (row : entity_row) (rest : list entity_row)
  (r : ValidationResult) (r0 : list ValidationResult) (f0 : checkpoint) :
  ve row = Returned r →
  EntityValidator.run_loop ve (row :: rest) r0 f0
  = EntityValidator.run_loop ve rest (r0 ++ [r])
      (if (length (r0 ++ [r]) mod 10 =? 0)%nat
       then EntityValidator._save_results (r0 ++ [r]) f0 else f0).
Proof. intros H. simpl. now rewrite H. Qed.

Lemma run_loop_raised (row : entity_row) (rest : list entity_row)
  (msg : string) (r0 : list ValidationResult) (f0 : checkpoint) :
  ve row = Raised msg →
  EntityValidator.run_loop ve (row :: rest) r0 f0
  = EntityValidator.run_loop ve rest r0 f0.
Proof. intros H. simpl. now rewrite H. Qed.

(** The loop only appends, one result per call that returns. *)
Lemma run_loop_results (todo : list entity_row) :
  ∀ (r0 : list ValidationResult) (f0 : checkpoint),
    ∃ new, (EntityValidator.run_loop ve todo r0 f0).1 = r0 ++ new
           ∧ length new = Spec.successes ve todo.
Proof.
  induction todo as [| row rest IH]; intros r0 f0.
  - exists []. simpl. now rewrite app_nil_r.
  - rewrite successes_cons.
    destruct (ve row) as [r | msg] eqn:E.
    + rewrite (run_loop_returned _ _ _ _ _ E).
      destruct (IH (r0 ++ [r]) (if (length (r0 ++ [r]) mod 10 =? 0)%nat
                                then EntityValidator._save_results (r0 ++ [r]) f0
                                else f0)) as (new & -> & Hlen).
      exists (r :: new). rewrite <- app_assoc. simpl. auto.
    + rewrite (run_loop_raised _ _ _ _ _ E). apply IH.
Qed.

(** The file after the loop: the results up to the last multiple of ten that
    the accumulated length reached in this loop, or the file as it was. *)
Lemma run_loop_file (todo : list entity_row) :
  ∀ (r0 : list ValidationResult) (f0 : checkpoint),
    let out := EntityValidator.run_loop ve todo r0 f0 in
    (length r0 / 10 < length out.1 / 10 →
       out.2 = Some (take (10 * (length out.1 / 10)) out.1))
    ∧ (length out.1 / 10 ≤ length r0 / 10 → out.2 = f0).
Proof.
  induction todo as [| row rest IH]; intros r0 f0; cbn zeta.
  - simpl. split; [lia | reflexivity].
  - destruct (ve row) as [r | msg] eqn:E;
      [rewrite (run_loop_returned _ _ _ _ _ E)
      | rewrite (run_loop_raised _ _ _ _ _ E); apply IH].
    set (r1 := r0 ++ [r]).
    remember (if (length r1 mod 10 =? 0)%nat
              then EntityValidator._save_results r1 f0 else f0) as f1 eqn:Hf1.
    destruct (IH r1 f1) as [Hcross Hstay].
    destruct (run_loop_results rest r1 f1) as (new & Hres & _).
    assert (Hlen1 : length r1 = S (length r0)).
    { unfold r1. rewrite length_app. simpl. lia. }
    assert (Hlen : length (EntityValidator.run_loop ve rest r1 f1).1
                   = (length r1 + length new)%nat).
    { now rewrite Hres, length_app. }
    destruct (Nat.lt_ge_cases (length r1 / 10)
                (length (EntityValidator.run_loop ve rest r1 f1).1 / 10))
      as [Hlt | Hge].
    + split; [intros _; auto |]. intros Hle. exfalso. div_mod_10.
    + rewrite (Hstay Hge).
      destruct (length r1 mod 10 =? 0)%nat eqn:Hmod.
      * apply Nat.eqb_eq in Hmod.
        split; [intros _ | intros Hle; exfalso; div_mod_10].
        rewrite Hf1 at 1. unfold EntityValidator._save_results.
        f_equal. rewrite Hres.
        replace (10 * (length (r1 ++ new) / 10))%nat with (length r1).
        -- now rewrite take_app_length.
        -- rewrite length_app. rewrite Hlen in Hge. div_mod_10.
      * apply Nat.eqb_neq in Hmod.
        split; [intros Hlt; exfalso; div_mod_10 | intros _; exact Hf1].
Qed.

End Loop.




(** C8 (amended). The loop writes the whole accumulated collection each time
    its length, results loaded on resume included, reaches a multiple of 10,
    and the batch writes it once more when the run ends.  The state of an
    interrupted run is the state of the loop after a prefix of its work
    queue: a fresh batch stopped after exactly 23 calls that returned leaves a
    checkpoint of exactly 20 results. *)
Theorem C8_checkpoint_every_tenth_result :
  ∀ (ve : entity_row → outcome ValidationResult) (todo : list entity_row)
    (r0 : list ValidationResult) (f0 : checkpoint),
    let out := EntityValidator.run_loop ve todo r0 f0 in
    let n0 := length r0 in
    let n := length out.1 in
    n = (n0 + Spec.successes ve todo)%nat
    ∧ take n0 out.1 = r0
    ∧ (n0 / 10 < n / 10 → out.2 = Some (take (10 * (n / 10)) out.1))
    ∧ (n / 10 ≤ n0 / 10 → out.2 = f0)
    ∧ (r0 = [] → Spec.successes ve todo = 23%nat →
         ∃ saved, out.2 = Some saved ∧ saved = take 20 out.1 ∧ length saved = 20%nat)
    ∧ (∀ self limit resume file,
         (EntityValidator.validate_batch ve self limit resume file).2
         = Some (EntityValidator.validate_batch ve self limit resume file).1).
Proof.
  intros ve todo r0 f0 out n0 n.
  destruct (run_loop_results ve todo r0 f0) as (new & Hres & Hnew).
  destruct (run_loop_file ve todo r0 f0) as [Hcross Hstay].
  fold out in Hres, Hcross, Hstay.
  assert (Hn : n = (n0 + Spec.successes ve todo)%nat).
  { unfold n, n0. now rewrite Hres, length_app, Hnew. }
  split; [exact Hn |]. split; [| split; [| split; [| split]]].
  - unfold n0. rewrite Hres. apply take_app_length.
  - exact Hcross.
  - exact Hstay.
  - intros -> H23. fold n in Hcross.
    assert (Hn23 : n = 23%nat) by (rewrite Hn; unfold n0; simpl; lia).
    rewrite Hn23 in Hcross.
    eexists. split; [apply Hcross; simpl; lia |]. split; [reflexivity |].
    change (10 * (23 / 10))%nat with 20%nat.
    rewrite length_take. fold n. lia.
  - intros self limit resume file. unfold EntityValidator.validate_batch.
    destruct (EntityValidator.load_cached resume file) as [results ids].
    now destruct (EntityValidator.run_loop ve _ results file).
Qed.

Lemma C8_checkpoint_every_tenth_result_witness :
  let ve := fun row => validate_entity (UseGPU Sample.nli_orphans) 1 row in
  let stopped :=
    EntityValidator.run_loop ve
      (take 23 (EntityValidator.entities_df Sample.orphans)) [] None in
  ∃ saved, stopped.2 = Some saved ∧ saved = take 20 stopped.1 ∧ length saved = 20%nat.
Proof.
  cbv zeta.
  destruct (C8_checkpoint_every_tenth_result
              (fun row => validate_entity (UseGPU Sample.nli_orphans) 1 row)
              (take 23 (EntityValidator.entities_df Sample.orphans)) [] None)
    as (_ & _ & _ & _ & H & _).
  apply H; reflexivity.
Defined.

(** A run resumed from 3 cached results and stopped after 10 more calls that
    returned: the file holds the first 10 of the 13 accumulated results. *)
Lemma C8_resumed_run_saves_off_phase :
  let v := UseGPU Sample.nli_orphans in
  let ve := fun row => validate_entity v 1 row in
  let first_run := validate_batch v Sample.one_second (Some 3%Z) false None in
  let cached := EntityValidator.load_cached true first_run.2 in
  let todo := EntityValidator.entities_to_process (validator_base v) None cached.2 in
  let stopped := EntityValidator.run_loop ve (take 10 todo) cached.1 first_run.2 in
  length cached.1 = 3%nat
  ∧ Spec.successes ve (take 10 todo) = 10%nat
  ∧ length stopped.1 = 13%nat
  ∧ stopped.2 = Some (take 10 stopped.1)
  ∧ stopped.2 ≠ Some stopped.1.
Proof.
  cbv zeta. split; [reflexivity |]. split; [reflexivity |].
  split; [reflexivity |]. split; [reflexivity |].
  intros H. apply (f_equal (fmap length)) in H. vm_compute in H. discriminate.
Qed.

(** C5 (as the code behaves). A batch of the hybrid scorer over one entity
    that takes the escalation path, run to completion and then run again with
    resume: the stored result has the empty identifier, so the entity is in
    the work queue again and the result collection grows. *)
Theorem C5_resume_repeats_escalated_entity :
  let v := UseHybrid Sample.hybrid_online in
  let first_run := validate_batch v Sample.one_second None false None in
  let cached := EntityValidator.load_cached true first_run.2 in
  let second_run := validate_batch v Sample.one_second None true first_run.2 in
  EntityValidator.entities_df (validator_base v) = [Sample.row_alpha]
  ∧ entity_id <$> first_run.1 = [""]
  ∧ EntityValidator.entities_to_process (validator_base v) None cached.2
    = [Sample.row_alpha]
  ∧ length second_run.1 = 2%nat
  ∧ second_run.1 ≠ first_run.1.
Proof.
  cbv zeta. split; [reflexivity |]. split; [reflexivity |].
  split; [reflexivity |]. split; [reflexivity |].
  intros H. apply (f_equal length) in H. vm_compute in H. discriminate.
Qed.

(** ** The NLI scorer *)

Section Rationals.

Lemma sum_fold (xs : list Q) (a : Q) :
  (fold_left FloatOps.add xs a == a + fold_right Qplus 0 xs)%Q.
Proof.
  revert a. induction xs as [| x xs IH]; intros a; simpl.
  - lra.
  - rewrite IH. unfold FloatOps.add. rewrite Qred_correct. lra.
Qed.

Lemma sum_pointwise {A} (f g : A → Q) (l : list A) :
  (∀ x, x ∈ l → (f x == g x)%Q) →
  (fold_right Qplus 0 (f <$> l) == fold_right Qplus 0 (g <$> l))%Q.
Proof.
  induction l as [| x l IH]; intros H; simpl; [reflexivity |].
  rewrite (H x) by apply list_elem_of_here.
  rewrite IH; [reflexivity |]. intros y Hy. apply H. now apply list_elem_of_further.
Qed.


Lemma max_cases (a b : Q) :
  (FloatOps.max a b = b ∧ (a < b)%Q) ∨ (FloatOps.max a b = a ∧ (b <= a)%Q).
Proof.
  unfold FloatOps.max. destruct (Float.Qltb a b) eqn:E.
  - left. split; [reflexivity | now apply Qltb_lt].
  - right. split; [reflexivity | now apply Qltb_ge].
Qed.

(** The running maximum dominates its start value and every element. *)
Lemma fold_max_upper (xs : list Q) (a : Q) :
  (a <= fold_left FloatOps.max xs a)%Q
  ∧ ∀ x, x ∈ xs → (x <= fold_left FloatOps.max xs a)%Q.
Proof.
  revert a. induction xs as [| y xs IH]; intros a; simpl.
  - split; [lra | intros x Hx; inversion Hx].
  - destruct (IH (FloatOps.max a y)) as [Hstart Hall].
    destruct (max_cases a y) as [[Hm Hlt] | [Hm Hle]]; rewrite Hm in *.
    + split; [lra |]. intros x Hx. apply elem_of_cons in Hx as [-> | Hx]; auto.
    + split; [exact Hstart |]. intros x Hx.
      apply elem_of_cons in Hx as [-> | Hx]; [lra | auto].
Qed.

(** The running maximum is its start value or one of the elements. *)
Lemma fold_max_attained (xs : list Q) (a : Q) :
  fold_left FloatOps.max xs a = a ∨ ∃ x, x ∈ xs ∧ fold_left FloatOps.max xs a = x.
Proof.
  revert a. induction xs as [| y xs IH]; intros a; simpl; [now left |].
  destruct (IH (FloatOps.max a y)) as [Hm | (x & Hx & Hm)].
  - rewrite Hm. destruct (max_cases a y) as [[-> _] | [-> _]].
    + right. exists y. split; [apply list_elem_of_here | reflexivity].
    + now left.
  - right. exists x. split; [now apply list_elem_of_further | exact Hm].
Qed.

Lemma fold_left_fmap {A B C} (g : C → B → C) (f : A → B) (l : list A) (c : C) :
  fold_left (fun acc x => g acc (f x)) l c = fold_left g (f <$> l) c.
Proof. revert c. induction l as [| x l IH]; intros c; simpl; auto. Qed.

End Rationals.

Section NLI.
Variables (self : GPUNLIValidator.t) (source_texts : list string).
Hypothesis Hne : source_texts ≠ [].
Hypothesis Hprob :
  ∀ premise hypothesis,
    (0 <= GPUNLIValidator.entailment_score self premise hypothesis)%Q
    ∧ (GPUNLIValidator.entailment_score self premise hypothesis <= 1)%Q.

Lemma max_entailment_fold (sentence : string) :
  GPUNLIValidator.max_entailment self source_texts sentence
  = fold_left FloatOps.max
      ((fun f => GPUNLIValidator.entailment_score self f sentence)
         <$> Spec.fragments source_texts) 0%Q.
Proof.
  unfold GPUNLIValidator.max_entailment, Spec.fragments, Py.take_list.
  rewrite <- list_fmap_compose.
  apply (fold_left_fmap FloatOps.max
           (fun src => GPUNLIValidator.entailment_score self (Py.take 1000 src) sentence)).
Qed.

Lemma fragments_nonempty : ∃ f, f ∈ Spec.fragments source_texts.
Proof.
  unfold Spec.fragments. destruct source_texts as [| s rest]; [congruence |].
  exists (Py.take 1000 s). simpl. apply list_elem_of_here.
Qed.

(** The inner loop computes the maximum over the fragments. *)
Lemma max_entailment_is_max (sentence : string) :
  let m := GPUNLIValidator.max_entailment self source_texts sentence in
  (∃ f, f ∈ Spec.fragments source_texts
        ∧ (m == GPUNLIValidator.entailment_score self f sentence)%Q)
  ∧ (∀ f, f ∈ Spec.fragments source_texts →
          (GPUNLIValidator.entailment_score self f sentence <= m)%Q).
Proof.
  cbn zeta. rewrite max_entailment_fold.
  set (ps := (fun f => GPUNLIValidator.entailment_score self f sentence)
               <$> Spec.fragments source_texts).
  destruct (fold_max_upper ps 0%Q) as [H0 Hall].
  split.
  - destruct (fold_max_attained ps 0%Q) as [Hm | (x & Hx & Hm)].
    + destruct fragments_nonempty as [f Hf]. exists f. split; [exact Hf |].
      assert (Hle : (GPUNLIValidator.entailment_score self f sentence
                     <= fold_left FloatOps.max ps 0)%Q).
      { apply Hall. unfold ps. apply list_elem_of_fmap. now exists f. }
      rewrite Hm in *. destruct (Hprob f sentence). lra.
    + apply list_elem_of_fmap in Hx as (f & -> & Hf).
      exists f. split; [exact Hf | now rewrite Hm].
  - intros f Hf. apply Hall. unfold ps. apply list_elem_of_fmap. now exists f.
Qed.

Lemma contradiction_scores_qualifying (description : string) :
  GPUNLIValidator.contradiction_scores self source_texts description
  = (fun s => FloatOps.sub 1 (GPUNLIValidator.max_entailment self source_texts s))
      <$> Spec.qualifying description.
Proof.
  unfold GPUNLIValidator.contradiction_scores, Spec.qualifying. f_equal.
  apply list_filter_iff. intros s. lia.
Qed.

(** With source text present the scorer returns, and its result is built
    from the mean of the contradiction scores. *)
Lemma nli_validate_entity (elapsed : Q) (row : entity_row) :
  EntityValidator.get_source_texts (GPUNLIValidator.base self) row
    = Returned source_texts →
  let scores :=
    (fun s => FloatOps.sub 1 (GPUNLIValidator.max_entailment self source_texts s))
      <$> Spec.qualifying (row_description row) in
  let c := match scores with
           | [] => 0%Q
           | _ => FloatOps.div (FloatOps.sum scores) (FloatOps.of_len scores)
           end in
  GPUNLIValidator.validate_entity self elapsed row
  = Returned
      (mkValidationResult (row_id row) (row_title row) (row_type row)
         (row_description row) (Finite c) (Float.Qltb (1 # 2) c) "gpu_nli"
         (if Float.Qltb (1 # 2) c
          then ["Description not well-supported by source texts (avg entailment: "
                  +:+ Float.format_f 2 (1 - c)%Q +:+ ")"]
          else [])
         elapsed).
Proof.
  intros Hsrc. cbn zeta. rewrite <- contradiction_scores_qualifying.
  unfold GPUNLIValidator.validate_entity. rewrite Hsrc.
  destruct source_texts as [| s0 rest]; [congruence | reflexivity].
Qed.

End NLI.



(** ** Resuming a finished batch when identifiers are kept *)

Section Resume.
Context {A : Type} (P : A → Prop) `{!∀ x, Decision (P x)}.

Lemma filter_all (l : list A) : (∀ x, x ∈ l → P x) → filter P l = l.
Proof.
  induction l as [| x l IH]; intros Hl; [reflexivity |].
  rewrite filter_cons_True by (apply Hl, list_elem_of_here).
  f_equal. apply IH. intros y Hy. apply Hl. now apply list_elem_of_further.
Qed.

Lemma filter_none (l : list A) : (∀ x, x ∈ l → ¬ P x) → filter P l = [].
Proof.
  induction l as [| x l IH]; intros Hl; [reflexivity |].
  rewrite filter_cons_False by (apply Hl, list_elem_of_here).
  apply IH. intros y Hy. apply Hl. now apply list_elem_of_further.
Qed.

End Resume.

Lemma run_loop_identifiers (ve : entity_row → outcome ValidationResult)
  (todo : list entity_row) :
  (∀ row, row ∈ todo → ∃ r, ve row = Returned r ∧ entity_id r = row_id row) →
  ∀ (r0 : list ValidationResult) (f0 : checkpoint),
    entity_id <$> (EntityValidator.run_loop ve todo r0 f0).1
    = (entity_id <$> r0) ++ (row_id <$> todo).
Proof.
  induction todo as [| row rest IH]; intros Hall r0 f0.
  - simpl. now rewrite app_nil_r.
  - destruct (Hall row) as (r & Hr & Hid); [apply list_elem_of_here |].
    rewrite (run_loop_returned ve _ _ _ _ _ Hr), IH.
    + rewrite fmap_app. simpl. rewrite Hid, <- app_assoc. reflexivity.
    + intros row' H'. apply Hall. now apply list_elem_of_further.
Qed.

(** A finished batch whose results carry the identifiers of their rows
    leaves nothing to do on resume. *)
Lemma resume_after_completion (ve ve' : entity_row → outcome ValidationResult)
  (self : EntityValidator.t) (file : checkpoint) :
  (∀ row, row ∈ EntityValidator.entities_df self →
          ∃ r, ve row = Returned r ∧ entity_id r = row_id row) →
  let first_run := EntityValidator.validate_batch ve self None false file in
  EntityValidator.entities_to_process self None
    (EntityValidator.load_cached true first_run.2).2 = []
  ∧ EntityValidator.validate_batch ve' self None true first_run.2 = first_run.
Proof.
  intros Hall first_run.
  assert (Hfirst : first_run
                   = ((EntityValidator.run_loop ve (EntityValidator.entities_df self)
                         [] file).1,
                      Some (EntityValidator.run_loop ve
                              (EntityValidator.entities_df self) [] file).1)).
  { unfold first_run, EntityValidator.validate_batch,
      EntityValidator.entities_to_process. cbn [EntityValidator.load_cached].
    rewrite filter_all by (intros; apply not_elem_of_empty).
    now destruct (EntityValidator.run_loop ve _ [] file). }
  set (results := (EntityValidator.run_loop ve (EntityValidator.entities_df self)
                     [] file).1) in Hfirst.
  assert (Hids : entity_id <$> results = row_id <$> EntityValidator.entities_df self).
  { unfold results. now rewrite (run_loop_identifiers ve _ Hall). }
  assert (Htodo : EntityValidator.entities_to_process self None
                    (EntityValidator.load_cached true (Some results)).2 = []).
  { unfold EntityValidator.entities_to_process. cbn [EntityValidator.load_cached snd].
    apply filter_none. intros row Hrow Hnot. apply Hnot.
    rewrite elem_of_list_to_set, Hids. apply list_elem_of_fmap. now exists row. }
  rewrite Hfirst. cbn [snd]. split; [exact Htodo |].
  unfold EntityValidator.validate_batch.
  cbn [EntityValidator.load_cached] in *. cbn [snd] in Htodo. rewrite Htodo.
  reflexivity.
Qed.

Lemma validate_entity_keeps_identifier (v : validator) (elapsed : Q)
  (row : entity_row) (texts : list string) :
  Spec.keeps_identifier v →
  EntityValidator.get_source_texts (validator_base v) row = Returned texts →
  ∃ r, validate_entity v elapsed row = Returned r ∧ entity_id r = row_id row.
Proof.
  destruct v as [g | n | h]; simpl; intros Hkeep Hsrc.
  - unfold GroqEntityValidator.validate_entity. rewrite Hsrc.
    destruct texts; [eexists; split; reflexivity |].
    destruct (GroqEntityValidator.client g _) as [msg | [content |]];
      [| destruct (GroqEntityValidator._parse_api_response _) as [[c b] i] |];
      eexists; split; reflexivity.
  - unfold GPUNLIValidator.validate_entity. rewrite Hsrc.
    destruct texts; eexists; split; reflexivity.
  - unfold HybridValidator.validate_entity. rewrite Hsrc, Hkeep.
    destruct texts; [eexists; split; reflexivity |].
    destruct (_ && _); [eexists; split; reflexivity |].
    destruct (_ || _); eexists; split; reflexivity.
Qed.

(** X1. For the Groq scorer, the NLI scorer and the hybrid scorer without a
    chat client, over a corpus whose source lookups all return: a batch run
    to completion and run again with resume has an empty work queue the
    second time and returns the same results and checkpoint. *)
Theorem X1_resume_idempotent_when_identifier_kept :
  ∀ (v : validator) (timing timing' : entity_row → Q) (file : checkpoint),
    Spec.keeps_identifier v →
    (∀ row, row ∈ EntityValidator.entities_df (validator_base v) →
            ∃ texts, EntityValidator.get_source_texts (validator_base v) row
                     = Returned texts) →
    let first_run := validate_batch v timing None false file in
    EntityValidator.entities_to_process (validator_base v) None
      (EntityValidator.load_cached true first_run.2).2 = []
    ∧ validate_batch v timing' None true first_run.2 = first_run.
Proof.
  intros v timing timing' file Hkeep Hsrc.
  apply (resume_after_completion
           (fun row => validate_entity v (timing row) row)
           (fun row => validate_entity v (timing' row) row)).
  intros row Hrow. destruct (Hsrc row Hrow) as [texts Htexts].
  apply (validate_entity_keeps_identifier v (timing row) row texts Hkeep Htexts).
Qed.

Lemma X1_resume_idempotent_when_identifier_kept_witness :
  let v := UseGPU Sample.nli_orphans in
  let first_run := validate_batch v Sample.one_second None false None in
  length first_run.1 = 25%nat
  ∧ validate_batch v Sample.one_second None true first_run.2 = first_run.
Proof.
  cbv zeta. split; [reflexivity |].
  apply (X1_resume_idempotent_when_identifier_kept (UseGPU Sample.nli_orphans)
           Sample.one_second Sample.one_second None I).
  intros row Hrow. change (row ∈ Sample.orphan <$> seq 0 25) in Hrow.
  apply list_elem_of_fmap in Hrow as (i & -> & _). exists []. reflexivity.
Defined.

(** ** Range of the confidence where no number is read from a reply *)

Lemma sum_bounds (xs : list Q) :
  (∀ x, x ∈ xs → (0 <= x)%Q ∧ (x <= 1)%Q) →
  (0 <= fold_right Qplus 0 xs)%Q
  ∧ (fold_right Qplus 0 xs <= inject_Z (Z.of_nat (length xs)))%Q.
Proof.
  induction xs as [| x xs IH]; intros H.
  - simpl. split; discriminate.
  - destruct (H x) as [H0 H1]; [apply list_elem_of_here |].
    destruct IH as [IH0 IH1]; [intros y Hy; apply H; now apply list_elem_of_further |].
    cbn [fold_right length]. rewrite Nat2Z.inj_succ, <- Z.add_1_r, inject_Z_plus.
    change (inject_Z 1) with 1%Q. split; lra.
Qed.

Lemma mean_in_unit_interval (xs : list Q) :
  xs ≠ [] →
  (∀ x, x ∈ xs → (0 <= x)%Q ∧ (x <= 1)%Q) →
  let c := FloatOps.div (FloatOps.sum xs) (FloatOps.of_len xs) in
  (0 <= c)%Q ∧ (c <= 1)%Q.
Proof.
  intros Hne H. cbn zeta. unfold FloatOps.div, FloatOps.sum, FloatOps.of_len.
  rewrite Qred_correct, sum_fold, Qplus_0_l.
  destruct (sum_bounds xs H) as [H0 H1].
  assert (Hn : (0 < inject_Z (Z.of_nat (length xs)))%Q).
  { change 0%Q with (inject_Z 0). rewrite <- Zlt_Qlt.
    destruct xs; [congruence | simpl; lia]. }
  split.
  - apply Qle_shift_div_l; [exact Hn | lra].
  - apply Qle_shift_div_r; [exact Hn | lra].
Qed.

(** X2. Every result of the hybrid scorer, and every result of the NLI
    scorer when the entailment probabilities lie between 0 and 1, has a
    confidence between 0 and 1. *)
Theorem X2_confidence_in_unit_interval_without_reply_number :
  ∀ (v : validator) (elapsed : Q) (row : entity_row) (r : ValidationResult),
    match v with
    | UseGroq _ => False
    | UseGPU n =>
        ∀ premise hypothesis,
          (0 <= GPUNLIValidator.entailment_score n premise hypothesis)%Q
          ∧ (GPUNLIValidator.entailment_score n premise hypothesis <= 1)%Q
    | UseHybrid _ => True
    end →
    validate_entity v elapsed row = Returned r →
    Spec.in_unit_interval (confidence r) = true.
Proof.
  intros [g | n | h] elapsed row r Hv Hr; [contradiction | |]; simpl in Hr.
  - destruct (EntityValidator.get_source_texts (GPUNLIValidator.base n) row)
      as [texts | msg] eqn:Hsrc;
      [| unfold GPUNLIValidator.validate_entity in Hr; rewrite Hsrc in Hr;
         discriminate].
    destruct (decide (texts = [])) as [-> | Hne];
      [unfold GPUNLIValidator.validate_entity in Hr; rewrite Hsrc in Hr;
       injection Hr as <-; reflexivity |].
    rewrite (nli_validate_entity n texts Hne elapsed row Hsrc) in Hr.
    revert Hr.
    set (scores := (fun s => FloatOps.sub 1 (GPUNLIValidator.max_entailment n texts s))
                     <$> Spec.qualifying (row_description row)).
    intros Hr.
    assert (Hrange : ∀ x, x ∈ scores → (0 <= x)%Q ∧ (x <= 1)%Q).
    { intros x Hx. apply list_elem_of_fmap in Hx as (s & -> & _).
      destruct (max_entailment_is_max n texts Hne Hv s) as [(f & _ & Hm) _].
      destruct (Hv f s) as [H0 H1].
      unfold FloatOps.sub. rewrite Qred_correct, Hm. split; lra. }
    destruct scores as [| x xs] eqn:Es.
    + injection Hr as <-. reflexivity.
    + destruct (mean_in_unit_interval (x :: xs) ltac:(discriminate) Hrange) as [H0 H1].
      injection Hr as <-. cbn [confidence]. unfold Spec.in_unit_interval, Float.le.
      apply andb_true_iff. split; now apply Qle_bool_iff.
  - unfold HybridValidator.validate_entity in Hr.
    destruct (EntityValidator.get_source_texts _ row) as [texts | msg]; [| discriminate].
    destruct texts as [| s0 rest]; [injection Hr as <-; reflexivity |].
    destruct (_ && _); [injection Hr as <-; reflexivity |].
    destruct (_ || _); [injection Hr as <-; reflexivity |].
    destruct (HybridValidator.groq_available h); [| injection Hr as <-; reflexivity].
    injection Hr as <-. unfold HybridValidator._groq_spot_check.
    destruct (HybridValidator.client h _) as [msg | [content |]]; try reflexivity.
    cbn [confidence set_method set_validation_time].
    now destruct (Py.contains _ _).
Qed.

Lemma X2_confidence_in_unit_interval_without_reply_number_witness :
  ∃ r, validate_entity (UseHybrid Sample.hybrid_online) 1 Sample.row_alpha = Returned r
       ∧ Spec.in_unit_interval (confidence r) = true.
Proof.
  eexists. split; [reflexivity |].
  apply (X2_confidence_in_unit_interval_without_reply_number
           (UseHybrid Sample.hybrid_online) 1 Sample.row_alpha _ I).
  reflexivity.
Defined.


(** ** Failure isolation in the batch loop *)

(** X3. The loop appends, in work-queue order, the result of every call that
    returns and skips every call that raises; it never raises itself. *)
Theorem X3_batch_isolates_failures :
  ∀ (ve : entity_row → outcome ValidationResult) (todo : list entity_row)
    (r0 : list ValidationResult) (f0 : checkpoint),
    (EntityValidator.run_loop ve todo r0 f0).1
    = r0 ++ omap (fun row => Spec.result_of (ve row)) todo.
Proof.
  intros ve todo. induction todo as [| row rest IH]; intros r0 f0.
  - simpl. now rewrite app_nil_r.
  - destruct (ve row) as [r | msg] eqn:E.
    + rewrite (run_loop_returned ve _ _ _ _ _ E), IH.
      cbn [omap list_omap]. rewrite E. cbn [Spec.result_of].
      now rewrite <- app_assoc.
    + rewrite (run_loop_raised ve _ _ _ _ _ E), IH.
      cbn [omap list_omap]. now rewrite E.
Qed.

(** Ten entities, the fifth raising: nine results, the fifth identifier absent. *)
Example batch_skips_the_fifth :
  entity_id <$>
    (EntityValidator.validate_batch Sample.raises_on_e4 Sample.orphans
       (Some 10%Z) false None).1
  = ["e0"; "e1"; "e2"; "e3"; "e5"; "e6"; "e7"; "e8"; "e9"].
Proof. reflexivity. Qed.

(** ** Source lookup *)

Lemma fail_open_result (v : validator) (elapsed : Q) (row : entity_row) :
  EntityValidator.get_source_texts (validator_base v) row = Returned [] →
  validate_entity v elapsed row =
    Returned (mkValidationResult (row_id row) (row_title row) (row_type row)
                (row_description row) (Finite 0) false (method_name v)
                ["No source texts available"] elapsed).
Proof.
  intros Hsrc. destruct v as [g | n | h]; simpl in *.
  - unfold GroqEntityValidator.validate_entity. now rewrite Hsrc.
  - unfold GPUNLIValidator.validate_entity. now rewrite Hsrc.
  - unfold HybridValidator.validate_entity. now rewrite Hsrc.
Qed.

Lemma get_source_texts_cited (self : EntityValidator.t) (row : entity_row) :
  EntityValidator.get_source_texts self row =
    match Terms.cited_ids self row with
    | Some ids => Returned (omap (fun tid => EntityValidator.text_unit_map self !! tid) ids)
    | None => Raised "JSONDecodeError"
    end.
Proof.
  unfold EntityValidator.get_source_texts, Terms.cited_ids.
  destruct (row_text_unit_ids row) as [ids | text]; [reflexivity |].
  now destruct (EntityValidator.json_loads self text).
Qed.

Lemma omap_nil_iff {A B} (f : A → option B) (l : list A) :
  omap f l = [] ↔ ∀ x, x ∈ l → f x = None.
Proof.
  induction l as [| a l IH]; simpl.
  - split; [intros _ x Hx; inversion Hx | reflexivity].
  - destruct (f a) eqn:E.
    + split; [discriminate |]. intros H.
      specialize (H a (list_elem_of_here _ _)). congruence.
    + rewrite IH. split.
      * intros H x Hx. apply elem_of_cons in Hx as [-> | Hx]; auto.
      * intros H x Hx. apply H. now apply list_elem_of_further.
Qed.

Lemma omap_all_some {A B} (f : A → option B) (l : list A) :
  (∀ x, x ∈ l → is_Some (f x)) → Some <$> omap f l = f <$> l.
Proof.
  induction l as [| a l IH]; intros H; [reflexivity |].
  destruct (H a (list_elem_of_here _ _)) as [b Hb].
  cbn [omap list_omap fmap list_fmap]. rewrite Hb. cbn [fmap list_fmap].
  f_equal. apply IH. intros x Hx. apply H. now apply list_elem_of_further.
Qed.

Lemma length_omap {A B} (f : A → option B) (l : list A) :
  length (omap f l) ≤ length l.
Proof.
  induction l as [| a l IH]; [reflexivity |].
  cbn [omap list_omap]. destruct (f a); cbn [length]; lia.
Qed.

(** X4. [get_source_texts] looks every cited identifier up in the text unit
    map and keeps, in citation order, the texts it finds: a missing
    identifier is skipped without an error, the result is never longer than
    the citation list, it is empty exactly when no cited identifier is a
    key, and when all of them are keys it lists their texts one for one. *)
Theorem X4_source_lookup_skips_missing :
  ∀ (self : EntityValidator.t) (row : entity_row) (ids : list string),
    Terms.cited_ids self row = Some ids →
    ∃ texts,
      EntityValidator.get_source_texts self row = Returned texts
      ∧ length texts ≤ length ids
      ∧ (∀ text, text ∈ texts ↔
           ∃ tid, tid ∈ ids ∧ EntityValidator.text_unit_map self !! tid = Some text)
      ∧ (texts = [] ↔
           ∀ tid, tid ∈ ids → EntityValidator.text_unit_map self !! tid = None)
      ∧ ((∀ tid, tid ∈ ids → is_Some (EntityValidator.text_unit_map self !! tid)) →
           Some <$> texts = (fun tid => EntityValidator.text_unit_map self !! tid) <$> ids).
Proof.
  intros self row ids Hids. rewrite get_source_texts_cited, Hids.
  eexists. split; [reflexivity |]. split; [apply length_omap |].
  split; [intros text; apply list_elem_of_omap |].
  split; [apply omap_nil_iff | apply omap_all_some].
Qed.

Lemma X4_source_lookup_skips_missing_witness :
  ∃ texts,
    EntityValidator.get_source_texts Sample.corpus
      (mkRow "e9" "Alpha" "ORG" "d" (IdList ["gone"; "t1"; "lost"]))
    = Returned texts
    ∧ length texts ≤ 3
    ∧ ("Alpha beta is here" ∈ texts).
Proof.
  destruct (X4_source_lookup_skips_missing Sample.corpus
              (mkRow "e9" "Alpha" "ORG" "d" (IdList ["gone"; "t1"; "lost"]))
              ["gone"; "t1"; "lost"] eq_refl) as (texts & Hr & Hlen & Hin & _).
  exists texts. split; [exact Hr |]. split; [exact Hlen |].
  apply Hin. exists "t1". split; [| reflexivity].
  apply list_elem_of_further, list_elem_of_here.
Defined.

(** X5. An entity none of whose cited text units is in the map (in
    particular one that cites nothing) gets the fail-open result from each
    of the three scorers: confidence 0.0, not flagged, one issue. *)
Theorem X5_unresolved_citations_fail_open :
  ∀ (v : validator) (elapsed : Q) (row : entity_row) (ids : list string),
    Terms.cited_ids (validator_base v) row = Some ids →
    (∀ tid, tid ∈ ids →
            EntityValidator.text_unit_map (validator_base v) !! tid = None) →
    validate_entity v elapsed row =
      Returned (mkValidationResult (row_id row) (row_title row) (row_type row)
                  (row_description row) (Finite 0) false (method_name v)
                  ["No source texts available"] elapsed).
Proof.
  intros v elapsed row ids Hids Hnone. apply fail_open_result.
  rewrite get_source_texts_cited, Hids. f_equal. now apply omap_nil_iff.
Qed.

Lemma X5_unresolved_citations_fail_open_witness :
  validate_entity (UseGroq Sample.groq_five) 3 Sample.row_orphan =
    Returned (mkValidationResult "e2" "Omega" "ORG" "Omega is a made up organisation."
                (Finite 0) false "groq" ["No source texts available"] 3).
Proof.
  apply (X5_unresolved_citations_fail_open (UseGroq Sample.groq_five) 3
           Sample.row_orphan ["missing"] eq_refl).
  intros tid Htid. apply list_elem_of_singleton in Htid as ->. reflexivity.
Defined.

(** ** The text unit map built by the constructor *)

Lemma text_unit_map_fold (rows : list (string * string)) :
  ∀ (m : gmap string string) (tid : string),
    fold_left (fun m row => <[row.1 := row.2]> m) rows m !! tid
    = match last (filter (fun row => row.1 = tid) rows) with
      | Some row => Some row.2
      | None => m !! tid
      end.
Proof.
  induction rows as [| row rows IH]; intros m tid; [reflexivity |].
  cbn [fold_left]. rewrite IH, filter_cons.
  destruct (decide (row.1 = tid)) as [Heq | Hne].
  - rewrite last_cons.
    destruct (last (filter _ rows)); [reflexivity |].
    rewrite <- Heq. apply lookup_insert_eq.
  - destruct (last (filter _ rows)); [reflexivity |].
    now apply lookup_insert_ne.
Qed.

(** X6. The text unit map of the constructor gives, for an identifier, the
    text of the last table row carrying it, and nothing for an identifier
    that no row carries. *)
Theorem X6_text_unit_map_last_row_wins :
  ∀ (rows : list (string * string)) (tid : string),
    Init.text_unit_map_of rows !! tid
    = snd <$> last (filter (fun row => row.1 = tid) rows).
Proof.
  intros rows tid. unfold Init.text_unit_map_of.
  rewrite text_unit_map_fold. now destruct (last _).
Qed.

Example text_unit_map_duplicate_id :
  Init.text_unit_map_of [("t1", "old"); ("t2", "other"); ("t1", "new")] !! "t1"
  = Some "new".
Proof. reflexivity. Qed.

(** ** Failures of the chat client *)

(** X7. When the chat call of the Groq scorer raises, or its reply has no
    content, the result is confidence 0.0, not flagged, with the error as
    its single issue; the identifier and the other copied fields are those
    of the row. *)
Theorem X7_groq_api_failure_fails_open :
  ∀ (self : GroqEntityValidator.t) (elapsed : Q) (row : entity_row)
    (texts : list string) (reply : api_outcome),
    EntityValidator.get_source_texts (GroqEntityValidator.base self) row
      = Returned texts →
    texts ≠ [] →
    GroqEntityValidator.client self
      (GroqEntityValidator.chat_request_of self
         (GroqEntityValidator._build_validation_prompt (row_title row)
            (row_type row) (row_description row) texts)) = reply →
    (∀ content, reply ≠ ApiContent (Some content)) →
    ∃ msg,
      GroqEntityValidator.validate_entity self elapsed row =
        Returned (mkValidationResult (row_id row) (row_title row) (row_type row)
                    (row_description row) (Finite 0) false "groq"
                    ["API error: " +:+ msg] elapsed).
Proof.
  intros self elapsed row texts reply Hsrc Hne Hreply Hfail.
  unfold GroqEntityValidator.validate_entity. rewrite Hsrc.
  destruct texts as [| s0 rest]; [congruence |]. rewrite Hreply.
  destruct reply as [msg | [content |]].
  - now exists msg.
  - now destruct (Hfail content).
  - now exists "API returned empty response".
Qed.

Lemma X7_groq_api_failure_fails_open_witness :
  ∃ msg,
    GroqEntityValidator.validate_entity
      (GroqEntityValidator.mk Sample.corpus (fun _ => ApiRaised "timeout") Sample.llama)
      1 Sample.row_alpha
    = Returned (mkValidationResult "e1" "Alpha" "ORG" "alpha beta gamma delta."
                  (Finite 0) false "groq" ["API error: " +:+ msg] 1).
Proof.
  apply (X7_groq_api_failure_fails_open
           (GroqEntityValidator.mk Sample.corpus (fun _ => ApiRaised "timeout")
              Sample.llama)
           1 Sample.row_alpha ["Alpha beta is here"] (ApiRaised "timeout")).
  - reflexivity.
  - discriminate.
  - reflexivity.
  - discriminate.
Defined.

(** X8. When the chat call of the hybrid scorer's spot check raises, or its
    reply has no content, the escalated result has confidence 0.5, is not
    flagged and carries the error as its single issue. *)
Theorem X8_spot_check_failure_is_not_flagged :
  ∀ (self : HybridValidator.t) (elapsed : Q) (row : entity_row)
    (texts : list string) (reply : api_outcome),
    EntityValidator.get_source_texts (HybridValidator.base self) row
      = Returned texts →
    texts ≠ [] →
    Spec.uncertain_band
      (HybridValidator.coverage texts (row_description row))
      (HybridValidator.name_found texts (row_title row)) →
    HybridValidator.groq_available self = true →
    HybridValidator.client self
      (HybridValidator.spot_check_request self (row_title row) (row_type row)
         (row_description row) texts) = reply →
    (∀ content, reply ≠ ApiContent (Some content)) →
    ∃ r msg,
      HybridValidator.validate_entity self elapsed row = Returned r
      ∧ confidence r = Finite (1 # 2)
      ∧ is_hallucinated r = false
      ∧ issues r = ["API error: " +:+ msg]
      ∧ method r = "hybrid_groq".
Proof.
  intros self elapsed row texts reply Hsrc Hne Hband Hon Hreply Hfail.
  pose proof (hybrid_escalates self elapsed row texts Hsrc Hne Hband) as Hr.
  rewrite Hon in Hr.
  unfold HybridValidator._groq_spot_check in Hr. rewrite Hreply in Hr.
  destruct reply as [msg | [content |]].
  - eexists; exists msg. split; [exact Hr |]. repeat split.
  - now destruct (Hfail content).
  - eexists; exists "API returned empty response". split; [exact Hr |]. repeat split.
Qed.

Lemma X8_spot_check_failure_is_not_flagged_witness :
  ∃ r msg,
    HybridValidator.validate_entity
      (HybridValidator.mk Sample.corpus true (fun _ => ApiContent None) Sample.llama)
      1 Sample.row_alpha = Returned r
    ∧ confidence r = Finite (1 # 2)
    ∧ is_hallucinated r = false
    ∧ issues r = ["API error: " +:+ msg]
    ∧ method r = "hybrid_groq".
Proof.
  apply (X8_spot_check_failure_is_not_flagged
           (HybridValidator.mk Sample.corpus true (fun _ => ApiContent None) Sample.llama)
           1 Sample.row_alpha ["Alpha beta is here"] (ApiContent None)).
  - reflexivity.
  - discriminate.
  - vm_compute. repeat split; discriminate.
  - reflexivity.
  - reflexivity.
  - discriminate.
Defined.

(** ** The flag and the number of the Groq scorer *)

Lemma parse_api_response_agrees (response : string) :
  let out := GroqEntityValidator._parse_api_response response in
  (out.1.2 = true → Float.lt out.1.1 (Finite (1 # 2)) = false)
  ∧ (out.1.2 = false → Float.gt out.1.1 (Finite (1 # 2)) = false).
Proof.
  cbn zeta. unfold GroqEntityValidator._parse_api_response.
  set (st := GroqEntityValidator.parse_fields response).
  change Float.c0_5 with (1 # 2)%Q.
  destruct (GroqEntityValidator.supported st); cbn [fst snd negb].
  - destruct (Float.gt (GroqEntityValidator.raw_confidence st) (Finite (1 # 2))) eqn:E;
      split; intros; try discriminate; [reflexivity | exact E].
  - destruct (Float.lt (GroqEntityValidator.raw_confidence st) (Finite (1 # 2))) eqn:E;
      split; intros; try discriminate; [reflexivity | exact E].
Qed.

(** X9. In every result of the Groq scorer the number never contradicts the
    flag: a flagged result has no confidence below 0.5 and an unflagged one
    has none above 0.5, whatever the reply or the failure of the call. *)
Theorem X9_groq_confidence_agrees_with_flag :
  ∀ (self : GroqEntityValidator.t) (elapsed : Q) (row : entity_row)
    (r : ValidationResult),
    GroqEntityValidator.validate_entity self elapsed row = Returned r →
    (is_hallucinated r = true → Float.lt (confidence r) (Finite (1 # 2)) = false)
    ∧ (is_hallucinated r = false → Float.gt (confidence r) (Finite (1 # 2)) = false).
Proof.
  intros self elapsed row r Hr. unfold GroqEntityValidator.validate_entity in Hr.
  destruct (EntityValidator.get_source_texts _ row) as [texts | msg]; [| discriminate].
  destruct texts as [| s0 rest].
  - injection Hr as <-. split; [discriminate | reflexivity].
  - destruct (GroqEntityValidator.client self _) as [msg | [content |]].
    + injection Hr as <-. split; [discriminate | reflexivity].
    + pose proof (parse_api_response_agrees (Py.strip content)) as H.
      destruct (GroqEntityValidator._parse_api_response (Py.strip content))
        as [[c h] i].
      injection Hr as <-. exact H.
    + injection Hr as <-. split; [discriminate | reflexivity].
Qed.

Lemma X9_groq_confidence_agrees_with_flag_witness :
  ∃ r, GroqEntityValidator.validate_entity Sample.groq_five 1 Sample.row_alpha
         = Returned r
       ∧ is_hallucinated r = true
       ∧ Float.lt (confidence r) (Finite (1 # 2)) = false.
Proof.
  eexists. split; [reflexivity |]. split; [reflexivity |].
  apply (X9_groq_confidence_agrees_with_flag Sample.groq_five 1 Sample.row_alpha _
           eq_refl).
  reflexivity.
Defined.

Lemma parse_line_supported (st : GroqEntityValidator.parsed) (line : string) :
  GroqEntityValidator.supported (GroqEntityValidator.parse_line st line)
  = if Py.startswith (Py.strip line) "SUPPORTED:"
    then Py.contains "YES" (Py.upper (Py.strip line))
    else GroqEntityValidator.supported st.
Proof.
  unfold GroqEntityValidator.parse_line.
  destruct (Py.startswith (Py.strip line) "SUPPORTED:"); [reflexivity |].
  destruct (Py.startswith (Py.strip line) "CONFIDENCE:"); [reflexivity |].
  destruct (Py.startswith (Py.strip line) "ISSUES:"); [| reflexivity].
  destruct (Py.split1 ":" (Py.strip line) !! 1%nat); [| reflexivity].
  now destruct (bool_decide _).
Qed.

Lemma parse_lines_supported (lines : list string) :
  ∀ st : GroqEntityValidator.parsed,
    GroqEntityValidator.supported (fold_left GroqEntityValidator.parse_line lines st)
    = match last (filter (fun line => Py.startswith line "SUPPORTED:" = true)
                         (Py.strip <$> lines)) with
      | Some line => Py.contains "YES" (Py.upper line)
      | None => GroqEntityValidator.supported st
      end.
Proof.
  induction lines as [| line lines IH]; intros st; [reflexivity |].
  cbn [fold_left fmap list_fmap]. rewrite IH, filter_cons, parse_line_supported.
  destruct (decide (Py.startswith (Py.strip line) "SUPPORTED:" = true)) as [E | E].
  - rewrite E, last_cons. now destruct (last _).
  - apply not_true_is_false in E. now rewrite E.
Qed.

(** X10. The flag of a parsed reply is decided by the last of its lines
    that, once stripped, begins with the SUPPORTED label: flagged exactly when
    that line does not contain YES in any letter case.  A reply without such
    a line is never flagged. *)
Theorem X10_last_supported_line_decides :
  ∀ response : string,
    (GroqEntityValidator._parse_api_response response).1.2
    = match last (Terms.supported_lines response) with
      | Some line => negb (Py.contains "YES" (Py.upper line))
      | None => false
      end.
Proof.
  intros response.
  unfold GroqEntityValidator._parse_api_response, GroqEntityValidator.parse_fields,
    Terms.supported_lines.
  cbn [fst snd]. rewrite parse_lines_supported.
  now destruct (last _).
Qed.

Example supported_twice :
  GroqEntityValidator._parse_api_response
    ("SUPPORTED: NO" +:+ Py.nl +:+ "CONFIDENCE: 0.9" +:+ Py.nl +:+ "  SUPPORTED: Yes")
  = (Finite (1 # 10), false, []).
Proof. reflexivity. Qed.

(** ** The text match of the hybrid scorer *)

(** X11. The term coverage of the hybrid scorer is a fraction between 0
    and 1, for every description and every list of source texts. *)
Theorem X11_coverage_is_a_fraction :
  ∀ (source_texts : list string) (description : string),
    (0 <= HybridValidator.coverage source_texts description)%Q
    ∧ (HybridValidator.coverage source_texts description <= 1)%Q.
Proof.
  intros source_texts description. unfold HybridValidator.coverage.
  set (terms := HybridValidator.key_terms description).
  set (found := filter _ terms).
  assert (Hle : length found ≤ length terms) by apply length_filter.
  destruct terms as [| t ts] eqn:Et; [split; discriminate |].
  unfold FloatOps.div, FloatOps.of_len. rewrite Qred_correct.
  assert (Hn : (0 < inject_Z (Z.of_nat (length (t :: ts))))%Q).
  { change 0%Q with (inject_Z 0). rewrite <- Zlt_Qlt. simpl. lia. }
  split.
  - apply Qle_shift_div_l; [exact Hn |]. rewrite Qmult_0_l.
    change 0%Q with (inject_Z 0). rewrite <- Zle_Qle. lia.
  - apply Qle_shift_div_r; [exact Hn |]. rewrite Qmult_1_l.
    rewrite <- Zle_Qle. lia.
Qed.

(** X12. A description without any key term (no word of more than three
    letters made of letters only, as in an empty description) has coverage
    0: with source text present the hybrid scorer flags it with confidence
    0.8 on the text path and reports the low coverage, whatever the sources
    say and without a chat call. *)
Theorem X12_no_key_terms_is_flagged :
  ∀ (self : HybridValidator.t) (elapsed : Q) (row : entity_row)
    (texts : list string),
    EntityValidator.get_source_texts (HybridValidator.base self) row
      = Returned texts →
    texts ≠ [] →
    HybridValidator.key_terms (row_description row) = [] →
    ∃ r, HybridValidator.validate_entity self elapsed row = Returned r
         ∧ confidence r = Finite (4 # 5)
         ∧ is_hallucinated r = true
         ∧ method r = "hybrid_text"
         ∧ entity_id r = row_id row
         ∧ "Low term coverage (0.0%)" ∈ issues r.
Proof.
  intros self elapsed row texts Hsrc Hne Hterms.
  assert (Hcov : HybridValidator.coverage texts (row_description row) = 0%Q).
  { unfold HybridValidator.coverage. now rewrite Hterms. }
  unfold HybridValidator.validate_entity. rewrite Hsrc.
  destruct texts as [| s0 rest]; [congruence |]. rewrite Hcov.
  change (Float.Qltb Float.c0_7 0) with false.
  change (Float.Qltb 0 Float.c0_3) with true.
  cbn [andb orb]. eexists. split; [reflexivity |].
  repeat split. cbn [issues]. apply elem_of_app. right.
  apply list_elem_of_here.
Qed.

Lemma X12_no_key_terms_is_flagged_witness :
  ∃ r, HybridValidator.validate_entity Sample.hybrid_online 1
         (mkRow "e3" "Alpha" "ORG" "" (IdList ["t1"])) = Returned r
       ∧ confidence r = Finite (4 # 5)
       ∧ is_hallucinated r = true
       ∧ method r = "hybrid_text"
       ∧ entity_id r = "e3"
       ∧ "Low term coverage (0.0%)" ∈ issues r.
Proof.
  apply (X12_no_key_terms_is_flagged Sample.hybrid_online 1
           (mkRow "e3" "Alpha" "ORG" "" (IdList ["t1"])) ["Alpha beta is here"]).
  - reflexivity.
  - discriminate.
  - reflexivity.
Defined.

(** X13. Outside the uncertain band the hybrid scorer decides by text
    alone: two hybrid validators over the same corpus return the same result
    for the entity, whatever their chat clients, models and availability. *)
Theorem X13_text_path_ignores_the_client :
  ∀ (self self' : HybridValidator.t) (elapsed : Q) (row : entity_row)
    (texts : list string),
    HybridValidator.base self = HybridValidator.base self' →
    EntityValidator.get_source_texts (HybridValidator.base self) row
      = Returned texts →
    ¬ Spec.uncertain_band
        (HybridValidator.coverage texts (row_description row))
        (HybridValidator.name_found texts (row_title row)) →
    HybridValidator.validate_entity self elapsed row
    = HybridValidator.validate_entity self' elapsed row.
Proof.
  intros self self' elapsed row texts Hbase Hsrc Hout.
  unfold HybridValidator.validate_entity. rewrite <- Hbase, Hsrc.
  destruct texts as [| s0 rest]; [reflexivity |].
  destruct (Float.Qltb Float.c0_7 _ && _) eqn:E1; [reflexivity |].
  destruct (Float.Qltb _ Float.c0_3 || _) eqn:E2; [reflexivity |].
  exfalso. apply Hout.
  apply orb_false_iff in E2 as [Hlo Hf]. apply negb_false_iff in Hf.
  rewrite Hf, andb_true_r in E1.
  apply Qltb_ge in Hlo, E1. unfold Spec.uncertain_band. auto.
Qed.

Lemma X13_text_path_ignores_the_client_witness :
  HybridValidator.validate_entity Sample.hybrid_online 1
    (mkRow "e3" "Alpha" "ORG" "" (IdList ["t1"]))
  = HybridValidator.validate_entity Sample.hybrid_offline 1
      (mkRow "e3" "Alpha" "ORG" "" (IdList ["t1"])).
Proof.
  apply (X13_text_path_ignores_the_client Sample.hybrid_online Sample.hybrid_offline
           1 (mkRow "e3" "Alpha" "ORG" "" (IdList ["t1"])) ["Alpha beta is here"]).
  - reflexivity.
  - reflexivity.
  - vm_compute. intros (H & _). now apply H.
Defined.

(** ** What the NLI scorer reads of the sources *)

(** X14. The NLI scorer reads only the first 1000 characters of the first
    three fragments: two validators with the same model whose lookups agree
    on that much of the sources return the same result for the entity. *)
Theorem X14_nli_reads_three_truncated_fragments :
  ∀ (n n' : GPUNLIValidator.t) (elapsed : Q) (row : entity_row)
    (texts texts' : list string),
    GPUNLIValidator.entailment_score n = GPUNLIValidator.entailment_score n' →
    EntityValidator.get_source_texts (GPUNLIValidator.base n) row = Returned texts →
    EntityValidator.get_source_texts (GPUNLIValidator.base n') row = Returned texts' →
    Spec.fragments texts = Spec.fragments texts' →
    GPUNLIValidator.validate_entity n elapsed row
    = GPUNLIValidator.validate_entity n' elapsed row.
Proof.
  intros n n' elapsed row texts texts' Hmodel Hsrc Hsrc' Hfrag.
  destruct (decide (texts = [])) as [-> | Hne].
  - destruct texts' as [| s rest]; [| discriminate].
    unfold GPUNLIValidator.validate_entity. now rewrite Hsrc, Hsrc'.
  - assert (Hne' : texts' ≠ []) by (intros ->; destruct texts; [congruence | discriminate]).
    rewrite (nli_validate_entity n texts Hne elapsed row Hsrc).
    rewrite (nli_validate_entity n' texts' Hne' elapsed row Hsrc').
    assert (Hscore : ∀ s, GPUNLIValidator.max_entailment n texts s
                          = GPUNLIValidator.max_entailment n' texts' s).
    { intros s. rewrite !max_entailment_fold. now rewrite Hmodel, Hfrag. }
    cbn zeta.
    rewrite (list_fmap_ext
               (fun s => FloatOps.sub 1 (GPUNLIValidator.max_entailment n texts s))
               (fun s => FloatOps.sub 1 (GPUNLIValidator.max_entailment n' texts' s))
               (Spec.qualifying (row_description row)));
      [reflexivity |].
    intros i s _. now rewrite Hscore.
Qed.

Lemma X14_nli_reads_three_truncated_fragments_witness :
  let row := mkRow "e7" "Alpha" "ORG" "Alpha was founded in Paris."
               (IdList ["t1"; "t2"; "t3"; "t4"]) in
  let score := fun premise hypothesis : string =>
                 if Py.contains "Paris" premise then 1%Q else 0%Q in
  let three := <["t1" := "one"]> (<["t2" := "two"]> (<["t3" := "three"]> ∅)) in
  let four := <["t4" := "Alpha was founded in Paris."]> three in
  GPUNLIValidator.validate_entity
    (GPUNLIValidator.mk (EntityValidator.mk [row] four (fun _ => None)) score) 1 row
  = GPUNLIValidator.validate_entity
      (GPUNLIValidator.mk (EntityValidator.mk [row] three (fun _ => None)) score) 1 row.
Proof.
  cbv zeta.
  apply (X14_nli_reads_three_truncated_fragments _ _ 1 _
           ["one"; "two"; "three"; "Alpha was founded in Paris."]
           ["one"; "two"; "three"]);
    reflexivity.
Defined.

(** ** A hybrid validator built without a credential *)

Lemma hybrid_validator_offline (env : environment) (api_key : option string) :
  groq_package env = None
  ∨ Init.truthy (Init.py_or api_key (GROQ_API_KEY env)) = false →
  HybridValidator.groq_available (Init.hybrid_validator env api_key) = false.
Proof.
  unfold Init.hybrid_validator. intros [H | H].
  - now rewrite H.
  - destruct (groq_package env); [| reflexivity]. rewrite H.
    now destruct (Init.py_or api_key (GROQ_API_KEY env)).
Qed.

(** X15. A hybrid validator constructed when the groq package is missing,
    or when neither the given key nor GROQ_API_KEY is a non-empty text,
    never takes the escalation path: none of its results has the method
    hybrid_groq, and each carries the identifier of its row. *)
Theorem X15_hybrid_without_credential_never_escalates :
  ∀ (env : environment) (api_key : option string) (elapsed : Q)
    (row : entity_row) (r : ValidationResult),
    groq_package env = None
    ∨ Init.truthy (Init.py_or api_key (GROQ_API_KEY env)) = false →
    HybridValidator.validate_entity (Init.hybrid_validator env api_key) elapsed row
      = Returned r →
    method r ≠ "hybrid_groq" ∧ entity_id r = row_id row.
Proof.
  intros env api_key elapsed row r Hoff Hr.
  pose proof (hybrid_validator_offline env api_key Hoff) as Hav.
  unfold HybridValidator.validate_entity in Hr. rewrite Hav in Hr.
  destruct (EntityValidator.get_source_texts _ row) as [texts | msg]; [| discriminate].
  destruct texts as [| s0 rest]; [injection Hr as <-; split; [discriminate | reflexivity] |].
  destruct (_ && _); [injection Hr as <-; split; [discriminate | reflexivity] |].
  destruct (_ || _); injection Hr as <-; split; (discriminate || reflexivity).
Qed.

Lemma X15_hybrid_without_credential_never_escalates_witness :
  ∃ r,
    HybridValidator.validate_entity
      (Init.hybrid_validator
         (mkEnvironment [Sample.row_alpha] [("t1", "Alpha beta is here")]
            (fun _ => None) (Some (fun _ _ => ApiContent (Some Sample.reply_accurate)))
            (Some "") false false (fun _ _ => 1%Q))
         None)
      1 Sample.row_alpha = Returned r
    ∧ method r ≠ "hybrid_groq" ∧ entity_id r = "e1".
Proof.
  eexists. split; [reflexivity |].
  apply (X15_hybrid_without_credential_never_escalates
           (mkEnvironment [Sample.row_alpha] [("t1", "Alpha beta is here")]
              (fun _ => None) (Some (fun _ _ => ApiContent (Some Sample.reply_accurate)))
              (Some "") false false (fun _ _ => 1%Q))
           None 1 Sample.row_alpha).
  - right. reflexivity.
  - reflexivity.
Defined.

(** ** What the Groq scorer reads of the sources *)

(** X23. The prompt of the Groq scorer holds the first three source
    fragments only: two validators with the same client and model whose
    lookups agree on the first three fragments return the same result. *)
Theorem X23_groq_reads_three_fragments :
  ∀ (g g' : GroqEntityValidator.t) (elapsed : Q) (row : entity_row)
    (texts texts' : list string),
    GroqEntityValidator.client g = GroqEntityValidator.client g' →
    GroqEntityValidator.model g = GroqEntityValidator.model g' →
    EntityValidator.get_source_texts (GroqEntityValidator.base g) row
      = Returned texts →
    EntityValidator.get_source_texts (GroqEntityValidator.base g') row
      = Returned texts' →
    take 3 texts = take 3 texts' →
    GroqEntityValidator.validate_entity g elapsed row
    = GroqEntityValidator.validate_entity g' elapsed row.
Proof.
  intros g g' elapsed row texts texts' Hclient Hmodel Hsrc Hsrc' Htake.
  unfold GroqEntityValidator.validate_entity. rewrite Hsrc, Hsrc'.
  assert (Hprompt : ∀ name type description,
             GroqEntityValidator._build_validation_prompt name type description texts
             = GroqEntityValidator._build_validation_prompt name type description texts').
  { intros. unfold GroqEntityValidator._build_validation_prompt, Py.take_list.
    now rewrite Htake. }
  destruct texts as [| s rest], texts' as [| s' rest']; try discriminate;
    [reflexivity |].
  unfold GroqEntityValidator.chat_request_of.
  now rewrite Hprompt, Hclient, Hmodel.
Qed.

Lemma X23_groq_reads_three_fragments_witness :
  let row := mkRow "e7" "Alpha" "ORG" "Alpha was founded in Paris."
               (IdList ["t1"; "t2"; "t3"; "t4"]) in
  let client := fun request : chat_request =>
                  if Py.contains "Paris is the seat" (req_user request)
                  then ApiContent (Some "SUPPORTED: YES")
                  else ApiContent (Some "SUPPORTED: NO") in
  let three := <["t1" := "one"]> (<["t2" := "two"]> (<["t3" := "three"]> ∅)) in
  let four := <["t4" := "Paris is the seat of Alpha."]> three in
  GroqEntityValidator.validate_entity
    (GroqEntityValidator.mk (EntityValidator.mk [row] four (fun _ => None))
       client Sample.llama) 1 row
  = GroqEntityValidator.validate_entity
      (GroqEntityValidator.mk (EntityValidator.mk [row] three (fun _ => None))
         client Sample.llama) 1 row.
Proof.
  cbv zeta.
  apply (X23_groq_reads_three_fragments _ _ 1 _
           ["one"; "two"; "three"; "Paris is the seat of Alpha."]
           ["one"; "two"; "three"]);
    reflexivity.
Defined.

(** ** What a batch run reads and writes of the checkpoint *)

Lemma run_loop_collects (ve : entity_row → outcome ValidationResult)
  (todo : list entity_row) :
  ∀ (r0 : list ValidationResult) (f0 : checkpoint),
    (EntityValidator.run_loop ve todo r0 f0).1
    = r0 ++ omap (fun row => Spec.result_of (ve row)) todo.
Proof.
  induction todo as [| row rest IH]; intros r0 f0.
  - simpl. now rewrite app_nil_r.
  - destruct (ve row) as [r | msg] eqn:E.
    + rewrite (run_loop_returned ve _ _ _ _ _ E), IH.
      cbn [omap list_omap]. rewrite E. cbn [Spec.result_of].
      now rewrite <- app_assoc.
    + rewrite (run_loop_raised ve _ _ _ _ _ E), IH.
      cbn [omap list_omap]. now rewrite E.
Qed.

Lemma validate_batch_collects (ve : entity_row → outcome ValidationResult)
  (self : EntityValidator.t) (limit : option Z) (resume : bool) (file : checkpoint) :
  let cached := EntityValidator.load_cached resume file in
  let todo := EntityValidator.entities_to_process self limit cached.2 in
  let results := cached.1 ++ omap (fun row => Spec.result_of (ve row)) todo in
  EntityValidator.validate_batch ve self limit resume file = (results, Some results).
Proof.
  cbn zeta. unfold EntityValidator.validate_batch.
  destruct (EntityValidator.load_cached resume file) as [cached ids]. cbn [fst snd].
  pose proof (run_loop_collects ve
                (EntityValidator.entities_to_process self limit ids) cached file) as H.
  destruct (EntityValidator.run_loop ve _ cached file) as [results f].
  cbn [fst] in H. now rewrite H.
Qed.

Lemma entities_to_process_pending (self : EntityValidator.t) (limit : option Z)
  (ids : gset string) (row : entity_row) :
  row ∈ EntityValidator.entities_to_process self limit ids →
  row ∈ EntityValidator.entities_df self ∧ row_id row ∉ ids.
Proof.
  unfold EntityValidator.entities_to_process, EntityValidator.head. intros H.
  assert (Hin : row ∈ filter (fun row => row_id row ∉ ids)
                         (EntityValidator.entities_df self)).
  { destruct limit as [n |]; [| exact H].
    destruct (n =? 0)%Z; [exact H |].
    destruct (0 <=? n)%Z; eapply subseteq_take; exact H. }
  apply list_elem_of_filter in Hin. tauto.
Qed.

(** X16. A run without resume does not read the checkpoint and replaces it:
    whatever the file held, the results and the file after the run are the
    results of this run's work queue alone. *)
Theorem X16_run_without_resume_replaces_checkpoint :
  ∀ (ve : entity_row → outcome ValidationResult) (self : EntityValidator.t)
    (limit : option Z) (file : checkpoint),
    let new := omap (fun row => Spec.result_of (ve row))
                 (EntityValidator.entities_to_process self limit ∅) in
    EntityValidator.validate_batch ve self limit false file = (new, Some new).
Proof.
  intros ve self limit file. cbn zeta.
  now rewrite (validate_batch_collects ve self limit false file).
Qed.

(** X17. A resumed run calls the scorer on no entity whose identifier is in
    the checkpoint, and it keeps the checkpoint's results, in their order, in
    front of the new ones, in the returned list and in the file. *)
Theorem X17_resume_keeps_and_skips_cached :
  ∀ (ve : entity_row → outcome ValidationResult) (self : EntityValidator.t)
    (limit : option Z) (cached : list ValidationResult),
    let todo :=
      EntityValidator.entities_to_process self limit
        (EntityValidator.load_cached true (Some cached)).2 in
    (∀ row, row ∈ todo →
            row ∈ EntityValidator.entities_df self
            ∧ row_id row ∉ entity_id <$> cached)
    ∧ EntityValidator.validate_batch ve self limit true (Some cached)
      = (cached ++ omap (fun row => Spec.result_of (ve row)) todo,
         Some (cached ++ omap (fun row => Spec.result_of (ve row)) todo)).
Proof.
  intros ve self limit cached todo. split.
  - intros row Hrow. apply entities_to_process_pending in Hrow as [Hin Hid].
    split; [exact Hin |]. cbn [EntityValidator.load_cached snd] in Hid.
    now rewrite elem_of_list_to_set in Hid.
  - now rewrite (validate_batch_collects ve self limit true (Some cached)).
Qed.

(** ** The limit chosen by the command line *)

(** X18. Without [--all], and with a [--limit] that is absent or not
    negative, [main] adds at most as many results as the stated limit (10
    when the limit is absent or 0) to those loaded from the checkpoint, and
    the checkpoint it leaves holds exactly the returned results. *)
Theorem X18_main_bounds_the_run :
  ∀ (env : environment) (args : arguments) (timing : entity_row → Q)
    (file : checkpoint) (out : main_output),
    main env args timing file = Returned out →
    arg_all args = false →
    (0 ≤ Terms.stated_limit args)%Z →
    length (out_results out)
      ≤ length (EntityValidator.load_cached (arg_resume args) file).1
        + Z.to_nat (Terms.stated_limit args)
    ∧ out_checkpoint out = Some (out_results out).
Proof.
  intros env args timing file out Hmain Hall Hpos. unfold main in Hmain.
  destruct (create_validator env (arg_method args)) as [v | msg]; [| discriminate].
  unfold validate_batch in Hmain.
  rewrite (validate_batch_collects _ (validator_base v)) in Hmain.
  assert (Hlimit : main_limit args = Some (Terms.stated_limit args)).
  { unfold main_limit, Terms.stated_limit. rewrite Hall.
    destruct (arg_limit args) as [n |]; [| reflexivity]. now destruct (n =? 0)%Z. }
  rewrite Hlimit in Hmain.
  set (cached := EntityValidator.load_cached (arg_resume args) file) in *.
  set (todo := EntityValidator.entities_to_process (validator_base v)
                 (Some (Terms.stated_limit args)) cached.2) in *.
  assert (Htodo : length todo ≤ Z.to_nat (Terms.stated_limit args)).
  { unfold todo, EntityValidator.entities_to_process, EntityValidator.head.
    assert (H10 : (Terms.stated_limit args ≠ 0)%Z).
    { unfold Terms.stated_limit. destruct (arg_limit args) as [n |]; [| lia].
      destruct (n =? 0)%Z eqn:E; [lia | now apply Z.eqb_neq in E]. }
    apply Z.eqb_neq in H10. rewrite H10.
    apply Z.leb_le in Hpos. rewrite Hpos. rewrite length_take. lia. }
  set (new := omap (fun row => Spec.result_of (validate_entity v (timing row) row)) todo)
    in *.
  assert (Hnew : length new ≤ length todo) by apply length_omap.
  assert (Hout : out_results out = cached.1 ++ new
                 ∧ out_checkpoint out = Some (cached.1 ++ new)).
  { destruct (cached.1 ++ new) as [| r rs] eqn:E.
    - injection Hmain as <-. now split.
    - destruct (Report.generate_report (r :: rs) (arg_output args)); [| discriminate].
      injection Hmain as <-. now split. }
  destruct Hout as [-> ->]. split; [| reflexivity].
  rewrite length_app. lia.
Qed.

Lemma X18_main_bounds_the_run_witness :
  ∃ out,
    main (mkEnvironment (EntityValidator.entities_df Sample.orphans) []
            (fun _ => None) None None false false (fun _ _ => 1%Q))
         (mkArguments hybrid "graphrag_output/output" (Some 0%Z) false false
            "validation_report.csv")
         Sample.one_second None = Returned out
    ∧ length (out_results out) ≤ 10.
Proof.
  eexists. split; [vm_compute; reflexivity |].
  eapply (X18_main_bounds_the_run
            (mkEnvironment (EntityValidator.entities_df Sample.orphans) []
               (fun _ => None) None None false false (fun _ _ => 1%Q))
            (mkArguments hybrid "graphrag_output/output" (Some 0%Z) false false
               "validation_report.csv")
            Sample.one_second None).
  - vm_compute. reflexivity.
  - reflexivity.
  - vm_compute. discriminate.
Defined.

(** X19. [main] ends with exit status 1 exactly when the chosen scorer cannot
    be built: for groq when the package is missing or GROQ_API_KEY is not a
    non-empty text, for gpu when torch or transformers is missing, for hybrid
    never.  Once the validator is built [main] returns; the report is only
    made for a non-empty result list. *)
Theorem X19_main_exits_only_at_construction :
  ∀ (env : environment) (args : arguments) (timing : entity_row → Q)
    (file : checkpoint),
    (main env args timing file = Raised "SystemExit: 1"
     ∨ ∃ out, main env args timing file = Returned out
              ∧ (out_report out = None ↔ out_results out = []))
    ∧ (main env args timing file = Raised "SystemExit: 1" ↔
       match arg_method args with
       | groq => groq_package env = None ∨ Init.truthy (GROQ_API_KEY env) = false
       | gpu => torch_installed env = false ∨ transformers_installed env = false
       | hybrid => False
       end).
Proof.
  intros env args timing file.
  assert (Hrun : ∀ v, ∃ out,
             (let '(results, file) :=
                validate_batch v timing (main_limit args) (arg_resume args) file in
              match results with
              | [] => Returned (mkMainOutput results file None)
              | _ =>
                  match Report.generate_report results (arg_output args) with
                  | Returned rep => Returned (mkMainOutput results file (Some rep))
                  | Raised msg => Raised msg
                  end
              end) = Returned out
             ∧ (out_report out = None ↔ out_results out = [])).
  { intros v. destruct (validate_batch v timing _ _ file) as [[| r rs] f].
    - eexists. split; [reflexivity |]. now split.
    - cbn [Report.generate_report]. eexists. split; [reflexivity |].
      split; discriminate. }
  unfold main, create_validator.
  destruct (arg_method args).
  - unfold Init.groq_entity_validator.
    destruct (groq_package env) as [Groq |].
    + cbn [Init.py_or].
      destruct (GROQ_API_KEY env) as [[| c key] |]; cbn [Init.truthy].
      * split; [now left |]. split; [now right | reflexivity].
      * destruct (Hrun (UseGroq (GroqEntityValidator.mk (Init.entity_validator env)
                                   (Groq (String c key)) Init.model_name)))
          as (out & Hout & Hrep).
        rewrite Hout. split; [right; now exists out |].
        split; [discriminate | intros [H | H]; discriminate].
      * split; [now left |]. split; [now right | reflexivity].
    + split; [now left |]. split; [now left | reflexivity].
  - unfold Init.gpu_nli_validator.
    destruct (torch_installed env); [destruct (transformers_installed env) |].
    + destruct (Hrun (UseGPU (GPUNLIValidator.mk (Init.entity_validator env)
                                (nli_model env)))) as (out & Hout & Hrep).
      rewrite Hout. split; [right; now exists out |].
      split; [discriminate | intros [H | H]; discriminate].
    + split; [now left |]. split; [now right | reflexivity].
    + split; [now left |]. split; [now left | reflexivity].
  - destruct (Hrun (UseHybrid (Init.hybrid_validator env None))) as (out & Hout & Hrep).
    rewrite Hout. split; [right; now exists out |].
    split; [discriminate | contradiction].
Qed.

(** ** The report *)

Section FloatOrder.

Lemma flt_asym (a b : pyfloat) : Float.lt a b = true → Float.lt b a = false.
Proof.
  destruct a as [x | | |], b as [y | | |]; simpl; try congruence.
  intros H. apply Qltb_lt in H. apply Qltb_ge. lra.
Qed.

(** "Not below" is transitive through a float that is not NaN. *)
Lemma fge_trans (a b c : pyfloat) :
  b ≠ NaN → Float.lt a b = false → Float.lt b c = false → Float.lt a c = false.
Proof.
  destruct a as [x | | |], b as [y | | |], c as [z | | |]; simpl;
    try congruence.
  intros _ H1 H2. apply Qltb_ge in H1, H2. apply Qltb_ge. lra.
Qed.

End FloatOrder.

Section SortDesc.

Lemma elem_of_insert_desc (x z : ValidationResult) (l : list ValidationResult) :
  z ∈ Report.insert_desc x l ↔ z = x ∨ z ∈ l.
Proof.
  induction l as [| y l IH]; simpl.
  - rewrite list_elem_of_singleton. split; [auto | intros [H | H]; [auto | inversion H]].
  - destruct (Float.lt (confidence x) (confidence y)).
    + rewrite !elem_of_cons, IH. tauto.
    + rewrite !elem_of_cons. tauto.
Qed.

Lemma elem_of_sort_desc (z : ValidationResult) (l : list ValidationResult) :
  z ∈ Report.sort_desc l ↔ z ∈ l.
Proof.
  induction l as [| x l IH]; [reflexivity |].
  change (Report.sort_desc (x :: l)) with (Report.insert_desc x (Report.sort_desc l)).
  rewrite elem_of_insert_desc, elem_of_cons, IH. tauto.
Qed.

Lemma length_insert_desc (x : ValidationResult) (l : list ValidationResult) :
  length (Report.insert_desc x l) = S (length l).
Proof.
  induction l as [| y l IH]; [reflexivity |]. simpl.
  destruct (Float.lt (confidence x) (confidence y)); simpl; [now rewrite IH | reflexivity].
Qed.

Lemma length_sort_desc (l : list ValidationResult) :
  length (Report.sort_desc l) = length l.
Proof.
  induction l as [| x l IH]; [reflexivity |].
  change (Report.sort_desc (x :: l)) with (Report.insert_desc x (Report.sort_desc l)).
  now rewrite length_insert_desc, IH.
Qed.

Lemma insert_desc_sorted (x : ValidationResult) (l : list ValidationResult) :
  (∀ y, y ∈ l → confidence y ≠ NaN) →
  StronglySorted Terms.not_below l →
  StronglySorted Terms.not_below (Report.insert_desc x l).
Proof.
  induction l as [| y l IH]; intros Hcmp Hs; simpl.
  - repeat constructor.
  - apply StronglySorted_inv in Hs as [Hs Hy].
    destruct (Float.lt (confidence x) (confidence y)) eqn:E.
    + constructor.
      * apply IH; [| exact Hs]. intros z Hz. apply Hcmp. now apply list_elem_of_further.
      * apply Forall_forall. intros z Hz. apply elem_of_insert_desc in Hz as [-> | Hz].
        -- now apply flt_asym.
        -- rewrite Forall_forall in Hy. now apply Hy.
    + constructor; [now constructor |].
      constructor; [exact E |].
      apply Forall_forall. intros z Hz. rewrite Forall_forall in Hy.
      apply (fge_trans _ (confidence y)); [| exact E | now apply Hy].
      apply Hcmp, list_elem_of_here.
Qed.

Lemma sort_desc_sorted (l : list ValidationResult) :
  (∀ y, y ∈ l → confidence y ≠ NaN) →
  StronglySorted Terms.not_below (Report.sort_desc l).
Proof.
  induction l as [| x l IH]; intros Hcmp; [constructor |].
  change (Report.sort_desc (x :: l)) with (Report.insert_desc x (Report.sort_desc l)).
  apply insert_desc_sorted.
  - intros y Hy. apply Hcmp, list_elem_of_further. now apply elem_of_sort_desc.
  - apply IH. intros y Hy. apply Hcmp. now apply list_elem_of_further.
Qed.

Lemma sorted_app_inv {A} (R : A → A → Prop) (l1 l2 : list A) :
  StronglySorted R (l1 ++ l2) →
  StronglySorted R l1 ∧ ∀ a b, a ∈ l1 → b ∈ l2 → R a b.
Proof.
  induction l1 as [| x l1 IH]; simpl; intros Hs.
  - split; [constructor | intros a b Ha; inversion Ha].
  - apply StronglySorted_inv in Hs as [Hs Hx]. destruct (IH Hs) as [Hs1 Hcross].
    rewrite Forall_forall in Hx. split.
    + constructor; [exact Hs1 |]. apply Forall_forall. intros z Hz.
      apply Hx, elem_of_app. now left.
    + intros a b Ha Hb. apply elem_of_cons in Ha as [-> | Ha]; [| now apply Hcross].
      apply Hx, elem_of_app. now right.
Qed.

Lemma filter_insert_desc (k : pyfloat) (x : ValidationResult)
  (l : list ValidationResult) :
  k ≠ NaN →
  filter (fun r => Terms.same_key k r = true) (Report.insert_desc x l)
  = filter (fun r => Terms.same_key k r = true) (x :: l).
Proof.
  intros Hk. induction l as [| y l IH]; [reflexivity |]. simpl.
  destruct (Float.lt (confidence x) (confidence y)) eqn:E; [| reflexivity].
  rewrite (filter_cons _ y), IH, !(filter_cons _ x), (filter_cons _ y).
  destruct (decide (Terms.same_key k x = true)) as [Hx | Hx];
    destruct (decide (Terms.same_key k y = true)) as [Hy | Hy]; try reflexivity.
  exfalso. unfold Terms.same_key in Hx, Hy.
  apply andb_true_iff in Hx as [Hx1 _]. apply andb_true_iff in Hy as [_ Hy2].
  apply negb_true_iff in Hx1, Hy2.
  pose proof (fge_trans _ _ _ Hk Hx1 Hy2). congruence.
Qed.

End SortDesc.

(** X20. When no flagged result has a NaN confidence, the list the report
    prints under "Top 10" holds at most ten results, all of them flagged
    results of the input and as many as there are up to ten, in descending
    order of confidence; and no flagged result left out has a confidence
    above that of a listed one. *)
Theorem X20_top_ten_are_the_most_confident :
  ∀ results : list ValidationResult,
    (∀ r, r ∈ results → is_hallucinated r = true → confidence r ≠ NaN) →
    let top := Report.top_hallucinations results in
    length top = min 10 (length (Terms.flagged results))
    ∧ (∀ r, r ∈ top → r ∈ results ∧ is_hallucinated r = true)
    ∧ StronglySorted Terms.not_below top
    ∧ (∀ a b, a ∈ top → b ∈ Terms.flagged results → b ∉ top → Terms.not_below a b).
Proof.
  intros results Hcmp top. unfold top, Report.top_hallucinations.
  fold (Terms.flagged results).
  set (sorted := Report.sort_desc (Terms.flagged results)).
  assert (Hflag : ∀ r, r ∈ Terms.flagged results → r ∈ results ∧ is_hallucinated r = true).
  { intros r Hr. apply list_elem_of_filter in Hr. tauto. }
  assert (Hs : StronglySorted Terms.not_below sorted).
  { apply sort_desc_sorted. intros y Hy. destruct (Hflag y Hy). auto. }
  rewrite <- (take_drop 10 sorted) in Hs.
  apply sorted_app_inv in Hs as [Htop Hcross].
  split; [| split; [| split]].
  - rewrite length_take. unfold sorted. now rewrite length_sort_desc.
  - intros r Hr. apply Hflag, elem_of_sort_desc. eapply subseteq_take, Hr.
  - exact Htop.
  - intros a b Ha Hb Hnot. apply Hcross; [exact Ha |].
    apply elem_of_sort_desc in Hb. fold sorted in Hb.
    rewrite <- (take_drop 10 sorted) in Hb.
    apply elem_of_app in Hb as [Hb | Hb]; [contradiction | exact Hb].
Qed.

Lemma X20_top_ten_are_the_most_confident_witness :
  let result (name : string) (c : Q) (flag : bool) :=
    mkValidationResult name name "ORG" "d" (Finite c) flag "groq" [] 1 in
  let results := [result "a" (1 # 5)%Q false; result "b" (4 # 5)%Q true;
                  result "c" (9 # 10)%Q true] in
  length (Report.top_hallucinations results) = 2%nat
  ∧ entity_id <$> Report.top_hallucinations results = ["c"; "b"].
Proof.
  cbv zeta. split; [| reflexivity].
  destruct (X20_top_ten_are_the_most_confident
              [mkValidationResult "a" "a" "ORG" "d" (Finite (1 # 5)) false "groq" [] 1;
               mkValidationResult "b" "b" "ORG" "d" (Finite (4 # 5)) true "groq" [] 1;
               mkValidationResult "c" "c" "ORG" "d" (Finite (9 # 10)) true "groq" [] 1])
    as (Hlen & _).
  - intros r Hr _.
    repeat (apply elem_of_cons in Hr as [-> | Hr]; [discriminate |]).
    inversion Hr.
  - exact Hlen.
Defined.

(** X21. The sort of the report is stable: among results without a NaN
    confidence, those whose confidences compare equal keep their original
    order. *)
Theorem X21_report_sort_is_stable :
  ∀ (l : list ValidationResult) (k : pyfloat),
    (∀ r, r ∈ l → confidence r ≠ NaN) →
    k ≠ NaN →
    filter (fun r => Terms.same_key k r = true) (Report.sort_desc l)
    = filter (fun r => Terms.same_key k r = true) l.
Proof.
  intros l k _ Hk. induction l as [| x l IH]; [reflexivity |].
  change (Report.sort_desc (x :: l)) with (Report.insert_desc x (Report.sort_desc l)).
  rewrite (filter_insert_desc k x _ Hk), !(filter_cons _ x), IH. reflexivity.
Qed.

Lemma X21_report_sort_is_stable_witness :
  let result (name : string) (c : Q) :=
    mkValidationResult name name "ORG" "d" (Finite c) true "hybrid_text" [] 1 in
  entity_id <$>
    Report.sort_desc [result "first" (4 # 5)%Q; result "top" (9 # 10)%Q;
                      result "second" (4 # 5)%Q]
  = ["top"; "first"; "second"]
  ∧ entity_id <$>
      filter (fun r => Terms.same_key (Finite (4 # 5)) r = true)
        (Report.sort_desc [result "first" (4 # 5)%Q; result "top" (9 # 10)%Q;
                           result "second" (4 # 5)%Q])
    = ["first"; "second"].
Proof.
  cbv zeta. split; [reflexivity |].
  rewrite (X21_report_sort_is_stable _ (Finite (4 # 5))); [reflexivity | | discriminate].
  intros r Hr. repeat (apply elem_of_cons in Hr as [-> | Hr]; [discriminate |]).
  inversion Hr.
Defined.

Lemma hallucinated_count_flagged (results : list ValidationResult) :
  Report.hallucinated_count results = length (Terms.flagged results).
Proof.
  unfold Report.hallucinated_count, Terms.flagged.
  induction results as [| r rs IH]; [reflexivity |].
  cbn [sum_list_with]. rewrite filter_cons, IH.
  destruct (is_hallucinated r); case_decide; simpl; congruence.
Qed.

(** X22. [generate_report] raises on an empty result list.  On a
    non-empty one it returns: the frame written has one row per result, in
    order, with the issues joined by "; "; the count it prints is the number
    of flagged results; and the percentage lies between 0 and 100. *)
Theorem X22_report_counts :
  ∀ (results : list ValidationResult) (output_file : string),
    match results with
    | [] => Report.generate_report results output_file = Raised "KeyError: 'issues'"
    | _ =>
        ∃ rep, Report.generate_report results output_file = Returned rep
               ∧ Report.csv_file rep = output_file
               ∧ Report.csv_entity_id <$> Report.csv_rows rep = entity_id <$> results
               ∧ Report.csv_issues <$> Report.csv_rows rep
                 = (fun r => Py.join "; " (issues r)) <$> results
               ∧ Report.hallucinated_count results = length (Terms.flagged results)
               ∧ (0 <= Report.hallucinated_percent results)%Q
               ∧ (Report.hallucinated_percent results <= 100)%Q
    end.
Proof.
  intros results output_file. destruct results as [| r rs]; [reflexivity |].
  set (results := r :: rs).
  assert (Hne : results ≠ []) by discriminate.
  eexists. split; [reflexivity |]. split; [reflexivity |].
  split; [cbn [Report.csv_rows]; rewrite <- list_fmap_compose; reflexivity |].
  split.
  { cbn [Report.csv_rows]. rewrite <- list_fmap_compose. apply list_fmap_ext.
    intros i x _. unfold Report.to_csv_row. cbn [compose Report.csv_issues].
    now destruct (issues x). }
  split; [apply hallucinated_count_flagged |].
  unfold Report.hallucinated_percent, FloatOps.div, FloatOps.of_len.
  rewrite Qred_correct, hallucinated_count_flagged.
  assert (Hle : length (Terms.flagged results) ≤ length results) by apply length_filter.
  assert (Hn : (0 < inject_Z (Z.of_nat (length results)))%Q).
  { change 0%Q with (inject_Z 0). rewrite <- Zlt_Qlt. unfold results. simpl. lia. }
  split.
  - apply Qle_shift_div_l; [exact Hn |]. rewrite Qmult_0_l.
    change 0%Q with (inject_Z 0). rewrite <- Zle_Qle. lia.
  - apply Qle_shift_div_r; [exact Hn |].
    change 100%Q with (inject_Z 100). rewrite <- inject_Z_mult, <- Zle_Qle. lia.
Qed.
